(** * SimpleContext: memory store, artifact vault, error journal and mode
      classifier

    A shallow embedding of [src/modes.py], [src/storage.py], [src/memory.py],
    [src/errors.py] and of the tool layer of [src/simplecontext.py].

    Conventions of the embedding.
    - Python [str] values are Rocq [string]s, one [ascii] per character, the
      character being a code point from 0 to 255; on these Python's
      [str.lower] and [str.strip] and the case folding of SQLite's [LIKE] are
      the functions written below.
    - Python [int] is [Z]; the integers given to a statement are those an
      SQLite INTEGER holds, of 64 bits.  A [REAL] column holding
      [time.time()] is the rational [Q] number of seconds that the binary64
      value is.  The instant SQLite derives from it is computed as SQLite
      does, with its binary64 roundings, its rounding to the millisecond and
      its range of valid days written out; the age and the score computed
      from that instant are exact rationals.
    - [uuid.uuid4()] and [time.time()] are inputs of the operations that
      call them.
    - The SQLite database is the record [storage.Store], one list of rows per
      table in scan (rowid) order; every statement of the source is a
      function on it.  A raised exception leaves the store as it was. *)

From Stdlib Require Import List String Ascii Bool Arith ZArith NArith QArith Qround.
From Stdlib Require Import Qpower.
From Stdlib Require Import PrimFloat Lia Sorted Permutation.
From Stdlib Require DecimalString.
Import ListNotations.

Set Warnings "-inexact-float".

Open Scope string_scope.

(* ================================================================== *)
(** * Text: the string operations of Python and SQLite the code relies on *)
(* ================================================================== *)

Module text.

(** SQLite's [sqlite3Tolower]: [A]..[Z] go to [a]..[z], every other
    character stays. *)
Definition lower_char (c : ascii) : ascii :=
  let n := N_of_ascii c in
  if ((65 <=? n) && (n <=? 90))%N then ascii_of_N (n + 32) else c.

(** A string folded with [lower_char]. *)
Fixpoint lower (s : string) : string :=
  match s with
  | EmptyString => EmptyString
  | String c s' => String (lower_char c) (lower s')
  end.

(** One character of [str.lower]: besides [A]..[Z], the upper-case letters
    of the second half of the code points, U+00C0 to U+00DE without the
    multiplication sign U+00D7, go to the letter 32 places on. *)
Definition str_lower_char (c : ascii) : ascii :=
  let n := N_of_ascii c in
  if (((65 <=? n) && (n <=? 90))
      || ((192 <=? n) && (n <=? 222) && negb (n =? 215)))%N
  then ascii_of_N (n + 32) else c.

(** [s.lower()] *)
Fixpoint str_lower (s : string) : string :=
  match s with
  | EmptyString => EmptyString
  | String c s' => String (str_lower_char c) (str_lower s')
  end.

(** One character of [str.upper] on the letters [a]..[z]. *)
Definition upper_char (c : ascii) : ascii :=
  let n := N_of_ascii c in
  if ((97 <=? n) && (n <=? 122))%N then ascii_of_N (n - 32) else c.

(** A string with its letters [a]..[z] in upper case. *)
Fixpoint upper (s : string) : string :=
  match s with
  | EmptyString => EmptyString
  | String c s' => String (upper_char c) (upper s')
  end.

(** The number of bytes of the UTF-8 encoding of [s]: one for a code point
    below 128, two for the others. *)
Fixpoint utf8_len (s : string) : Z :=
  match s with
  | EmptyString => 0%Z
  | String c s' =>
      ((if (N_of_ascii c <? 128)%N then 1 else 2) + utf8_len s')%Z
  end.

(** [any_suffix f s]: does [f] accept [s] or one of its proper suffixes? *)
Fixpoint any_suffix (f : string -> bool) (s : string) : bool :=
  f s || match s with
         | EmptyString => false
         | String _ s' => any_suffix f s'
         end.

(** [s.startswith(p)] *)
Fixpoint startswith (p s : string) : bool :=
  match p, s with
  | EmptyString, _ => true
  | String _ _, EmptyString => false
  | String a p', String b s' => Ascii.eqb a b && startswith p' s'
  end.

(** [needle in hay] on two [str] values: case-sensitive substring test. *)
Definition contains (needle hay : string) : bool :=
  any_suffix (startswith needle) hay.

(** [str.isspace] on one character: TAB, LF, VT, FF, CR, the four
    separators FS, GS, RS, US, the space, the next-line control U+0085 and
    the no-break space U+00A0. *)
Definition is_space (c : ascii) : bool :=
  let n := N_of_ascii c in
  (((9 <=? n) && (n <=? 13)) || ((28 <=? n) && (n <=? 31)) || (n =? 32)
   || (n =? 133) || (n =? 160))%N.

Fixpoint lstrip (s : string) : string :=
  match s with
  | EmptyString => EmptyString
  | String c s' => if is_space c then lstrip s' else s
  end.

Fixpoint rstrip (s : string) : string :=
  match s with
  | EmptyString => EmptyString
  | String c s' =>
      match rstrip s' with
      | EmptyString => if is_space c then EmptyString else String c EmptyString
      | r => String c r
      end
  end.

(** [s.strip()] *)
Definition strip (s : string) : string := rstrip (lstrip s).

(** Every character of [s] is white space. *)
Fixpoint all_space (s : string) : bool :=
  match s with
  | EmptyString => true
  | String c s' => is_space c && all_space s'
  end.

End text.

(* ================================================================== *)
(** * modes.py *)
(* ================================================================== *)

Module modes.
Import text.

(** [MODES]: the attention budgets, a dict kept in insertion order. *)
Definition MODES : list (string * list (string * float)) :=
  [ ("coding",
      [ ("memories", 0.30); ("artifacts", 0.30); ("session", 0.25);
        ("errors", 0.10); ("goal", 0.05) ]%float);
    ("debugging",
      [ ("errors", 0.50); ("session", 0.25); ("memories", 0.15);
        ("artifacts", 0.10); ("goal", 0.00) ]%float) ].

Definition DEBUG_KEYWORDS : list string :=
  [ "error"; "bug"; "fail"; "failing"; "broken"; "crash"; "crashes";
    "exception"; "traceback"; "stack trace"; "fix"; "debug"; "debugging";
    "not working"; "doesn't work"; "won't work" ].

(** The [for keyword in DEBUG_KEYWORDS] loop of [detect_mode]. *)
Fixpoint scan_keywords (keywords : list string) (message_lower : string)
  : string :=
  match keywords with
  | [] => "coding"
  | keyword :: rest =>
      if contains keyword message_lower then "debugging"
      else scan_keywords rest message_lower
  end.

Definition detect_mode (message : string) : string :=
  let message_lower := str_lower message in
  scan_keywords DEBUG_KEYWORDS message_lower.

(** [dict.get(key, default)] on an insertion-ordered dict. *)
Fixpoint dict_get {A : Type} (d : list (string * A)) (key : string)
  (default : A) : A :=
  match d with
  | [] => default
  | (k, v) :: d' => if String.eqb k key then v else dict_get d' key default
  end.

(** [MODES["coding"]] *)
Definition MODES_coding : list (string * float) := dict_get MODES "coding" [].

Definition get_attention_budget (mode : string) : list (string * float) :=
  dict_get MODES mode MODES_coding.

(** [sum(budget.values())]: binary64 additions, left to right from 0. *)
Definition fsum (l : list float) : float := fold_left PrimFloat.add l 0%float.

(** [sys.float_info.epsilon], 2^-52. *)
Definition epsilon : float := 0x1p-52%float.

(** [abs(x - 1.0) <= epsilon] *)
Definition sums_to_one (l : list float) : bool :=
  PrimFloat.leb (PrimFloat.abs (PrimFloat.sub (fsum l) 1%float)) epsilon.

(** Every order in which a list can be enumerated. *)
Fixpoint insert_everywhere {A : Type} (x : A) (l : list A) : list (list A) :=
  match l with
  | [] => [[x]]
  | y :: l' => (x :: l) :: map (cons y) (insert_everywhere x l')
  end.

Fixpoint orders {A : Type} (l : list A) : list (list A) :=
  match l with
  | [] => [[]]
  | x :: l' => flat_map (insert_everywhere x) (orders l')
  end.

End modes.

(* ================================================================== *)
(** * The SQL the statements of the source rely on *)
(* ================================================================== *)

Module sqlite.
Import text.

(** SQLite's [patternCompare] for LIKE without an ESCAPE clause: [%]
    stands for any run of characters, [_] for any one character, and every
    other character of the pattern matches itself up to ASCII letter case. *)
Fixpoint pattern_compare (pattern s : string) {struct pattern} : bool :=
  match pattern with
  | EmptyString =>
      match s with EmptyString => true | String _ _ => false end
  | String c pattern' =>
      if Ascii.eqb c "%" then any_suffix (pattern_compare pattern') s
      else
        match s with
        | EmptyString => false
        | String d s' =>
            (Ascii.eqb c "_" || Ascii.eqb (lower_char c) (lower_char d))
            && pattern_compare pattern' s'
        end
  end.

(** A text value read as a C string: what comes before its first NUL. *)
Fixpoint c_string (s : string) : string :=
  match s with
  | EmptyString => EmptyString
  | String c s' =>
      if (N_of_ascii c =? 0)%N then EmptyString else String c (c_string s')
  end.

(** [s LIKE pattern], SQLite's default operator: [likeFunc] hands both
    sides to [patternCompare] as C strings. *)
Definition like (pattern s : string) : bool :=
  pattern_compare (c_string pattern) (c_string s).

(** SQLITE_MAX_LIKE_PATTERN_LENGTH: on a pattern of more bytes [likeFunc]
    fails with "LIKE or GLOB pattern too complex". *)
Definition MAX_LIKE_PATTERN_LENGTH : Z := 50000.

Definition like_too_complex (pattern : string) : bool :=
  (MAX_LIKE_PATTERN_LENGTH <? utf8_len pattern)%Z.

(** [LIMIT n]: a negative [n] is no limit. *)
Definition limit {A : Type} (n : Z) (rows : list A) : list A :=
  if (n <? 0)%Z then rows else firstn (Z.to_nat n) rows.

(** Ordering of [ORDER BY] keys; [None] is SQL NULL, below every value. *)
Definition key_ge (a b : option Q) : bool :=
  match a, b with
  | _, None => true
  | None, Some _ => false
  | Some x, Some y => Qle_bool y x
  end.

(** [ORDER BY key DESC] in front of a [LIMIT]: SQLite sorts on the key
    followed by the sequence number of the row in the scan, so rows with
    equal keys stay in scan order.  [insert_desc] puts a row, scanned before
    all of [sorted], in front of the first row whose key is not above its
    own. *)
Fixpoint insert_desc {A : Type} (key : A -> option Q) (x : A)
  (sorted : list A) : list A :=
  match sorted with
  | [] => [x]
  | y :: sorted' =>
      if key_ge (key x) (key y) then x :: sorted
      else y :: insert_desc key x sorted'
  end.

Definition order_by_desc {A : Type} (key : A -> option Q) (rows : list A)
  : list A :=
  fold_right (insert_desc key) [] rows.

(** Milliseconds in a day, and the Julian day of the Unix epoch in
    milliseconds. *)
Definition MS_PER_DAY : Z := 86400000.
Definition UNIX_EPOCH_MS : Z := 210866760000000.

(** Binary64 arithmetic on rationals.  [floor_log2 a] is the exponent of
    the positive [a]: 2^k <= a < 2^(k+1). *)
Definition pow2 (e : Z) : Q := Qpower 2 e.

Definition floor_log2 (a : Q) : Z :=
  let k := (Z.log2 (Qnum a) - Z.log2 (Zpos (Qden a)))%Z in
  if Qle_bool (pow2 k) a then k else (k - 1)%Z.

(** The integer nearest to [x], the even one of two equally near. *)
Definition round_half_even (x : Q) : Z :=
  let f := Qfloor x in
  match Qcompare (x - inject_Z f) (1 # 2) with
  | Lt => f
  | Gt => (f + 1)%Z
  | Eq => if Z.even f then f else (f + 1)%Z
  end.

(** The binary64 number nearest to the positive [a]: 53 significant bits,
    the exponent not below that of the subnormal numbers. *)
Definition nearest64 (a : Q) : Q :=
  let e := Z.max (floor_log2 a - 52) (-1074) in
  (inject_Z (round_half_even (a / pow2 e)) * pow2 e)%Q.

(** The binary64 result of an operation whose exact result is [x] (round
    to nearest, ties to even), for results below 2^1024 in magnitude. *)
Definition binary64 (x : Q) : Q :=
  match Qcompare x 0 with
  | Eq => 0%Q
  | Gt => nearest64 x
  | Lt => (- nearest64 (- x))%Q
  end.

(** [julianday(t, 'unixepoch')], in integer milliseconds as SQLite keeps
    it.  SQLite computes [r = t*1000.0 + 210866760000000.0] in binary64,
    answers NULL unless [0 <= r < 464269060800000], keeps the integer part
    [iJD] of [r + 0.5], and answers NULL again when [iJD] is past the last
    millisecond of the year 9999 ([validJulianDay]). *)
Definition julianday_unixepoch_ms (t : Q) : option Z :=
  let r := binary64 (binary64 (t * 1000) + inject_Z UNIX_EPOCH_MS) in
  if Qle_bool 0 r && negb (Qle_bool 464269060800000 r)
  then
    let iJD := Qfloor (binary64 (r + (1 # 2))) in
    if (iJD <=? 464269060799999)%Z then Some iJD else None
  else None.

(** [julianday('now')], in integer milliseconds: the wall clock [now]
    (seconds since the Unix epoch) cut to the millisecond. *)
Definition julianday_now_ms (now : Q) : Z :=
  (Qfloor (now * 1000) + UNIX_EPOCH_MS)%Z.

(** [julianday('now') - julianday(created_at, 'unixepoch')], in days. *)
Definition age_days (now created_at : Q) : option Q :=
  match julianday_unixepoch_ms created_at with
  | None => None
  | Some c => Some (inject_Z (julianday_now_ms now - c) / inject_Z MS_PER_DAY)%Q
  end.

(** [1.0 / (1.0 + age_days * 0.1)]; a division by zero is NULL. *)
Definition recency_score (now created_at : Q) : option Q :=
  match age_days now created_at with
  | None => None
  | Some a =>
      let d := (1 + a * (1 # 10))%Q in
      if Qeq_bool d 0 then None else Some (1 / d)%Q
  end.

End sqlite.

(* ================================================================== *)
(** * storage.py: the schema, and the triggers of [_init_schema] *)
(* ================================================================== *)

Module storage.

(** A row of [memories]; the table has no INTEGER PRIMARY KEY, so SQLite
    gives each row a [rowid] of its own. *)
Record MemoryRow : Type := {
  m_rowid : Z;
  m_id : string;
  m_content : string;
  m_tags : string;
  m_created_at : Q;
  m_importance : string
}.

(** What one [INSERT INTO memories_fts(rowid, content, tags)] added to the
    full-text index. *)
Record FtsEntry : Type := {
  f_rowid : Z;
  f_content : string;
  f_tags : string
}.

Record ArtifactRow : Type := {
  a_id : string;
  a_name : string;
  a_content : string;
  a_size : Z;
  a_created_at : Q
}.

Record ErrorRow : Type := {
  e_id : Z;
  e_action : string;
  e_error : string;
  e_context : string;
  e_created_at : Q;
  e_resolved : Z
}.

(** The database.  [errors_seq] is the AUTOINCREMENT counter of [errors]
    (its line of [sqlite_sequence]); the [session] table, which no statement
    of the modelled files writes, is left out. *)
Record Store : Type := {
  memories : list MemoryRow;
  memories_fts : list FtsEntry;
  artifacts : list ArtifactRow;
  errors : list ErrorRow;
  errors_seq : Z;
  config : list (string * string)
}.

(** The database [_init_schema] creates on first use. *)
Definition init_schema : Store :=
  {| memories := []; memories_fts := []; artifacts := []; errors := [];
     errors_seq := 0; config := [] |}.

Definition set_memories (st : Store) (mem : list MemoryRow)
  (idx : list FtsEntry) : Store :=
  {| memories := mem; memories_fts := idx; artifacts := artifacts st;
     errors := errors st; errors_seq := errors_seq st; config := config st |}.

Definition set_artifacts (st : Store) (arts : list ArtifactRow) : Store :=
  {| memories := memories st; memories_fts := memories_fts st;
     artifacts := arts; errors := errors st; errors_seq := errors_seq st;
     config := config st |}.

Definition set_errors (st : Store) (errs : list ErrorRow) (seq : Z) : Store :=
  {| memories := memories st; memories_fts := memories_fts st;
     artifacts := artifacts st; errors := errs; errors_seq := seq;
     config := config st |}.

(** The rowid SQLite picks for a new row: one more than the largest in the
    table, 1 in an empty table. *)
Definition max_rowid (rowids : list Z) : Z := fold_right Z.max 0%Z rowids.
Definition next_rowid (rowids : list Z) : Z := (max_rowid rowids + 1)%Z.

(** Trigger [memories_ai], AFTER INSERT ON memories:
    [INSERT INTO memories_fts(rowid, content, tags)
     VALUES (new.rowid, new.content, new.tags)]. *)
Definition memories_ai (idx : list FtsEntry) (new : MemoryRow)
  : list FtsEntry :=
  (idx ++ [ {| f_rowid := m_rowid new; f_content := m_content new;
               f_tags := m_tags new |} ])%list.

(** [DELETE FROM memories_fts WHERE rowid = ?].  [memories_fts] is declared
    with [content='memories'], an external-content FTS5 table: it stores the
    index only, and its rows are read from [memories].  So the WHERE clause
    finds a row only when [memories] still has one with that rowid, and the
    index entries removed are those of the text read there.  (The statement
    FTS5 provides to drop the entries of a row that is gone is
    [INSERT INTO memories_fts(memories_fts, rowid, content, tags)
     VALUES('delete', ...)], which the schema does not use.) *)
Definition fts_delete_rowid (mem : list MemoryRow) (idx : list FtsEntry)
  (rowid : Z) : list FtsEntry :=
  match find (fun m => (m_rowid m =? rowid)%Z) mem with
  | None => idx
  | Some m =>
      filter (fun e => negb ((f_rowid e =? rowid)%Z
                             && String.eqb (f_content e) (m_content m)
                             && String.eqb (f_tags e) (m_tags m))) idx
  end.

(** Trigger [memories_ad], AFTER DELETE ON memories:
    [DELETE FROM memories_fts WHERE rowid = old.rowid].  It runs once per
    deleted row, on the table [mem] that row has already left. *)
Definition memories_ad (mem : list MemoryRow) (idx : list FtsEntry)
  (old : MemoryRow) : list FtsEntry :=
  fts_delete_rowid mem idx (m_rowid old).

(** Trigger [memories_au] (AFTER UPDATE ON memories) never runs: no
    statement of the source updates a row of [memories]. *)

(** The FTS5 engine behind [memories_fts MATCH ?]: its query parser, which
    rejects a malformed query ([sqlite3.OperationalError]), and the
    evaluation of a query on everything indexed under one rowid. *)
Class Fts5 : Type := {
  fts5_query : Type;
  fts5_parse : string -> option fts5_query;
  fts5_eval : fts5_query -> list (string * string) -> bool
}.

(** The (content, tags) texts indexed under [rowid], oldest first. *)
Definition indexed_under (idx : list FtsEntry) (rowid : Z)
  : list (string * string) :=
  map (fun e => (f_content e, f_tags e))
      (filter (fun e => (f_rowid e =? rowid)%Z) idx).

(** Does [memories_fts MATCH q] produce [rowid]? *)
Definition fts_match `{Fts5} (q : fts5_query) (idx : list FtsEntry)
  (rowid : Z) : bool :=
  match indexed_under idx rowid with
  | [] => false
  | docs => fts5_eval q docs
  end.

End storage.

(* ================================================================== *)
(** * Python: exceptions and [json.dumps] *)
(* ================================================================== *)

Module python.

(** The exceptions the modelled code raises: [ValueError] and [TypeError]
    from the tool layer, and the two [sqlite3.Error]s a statement can end
    in. *)
Inductive exn : Type :=
| ValueError (msg : string)
| IntegrityError
| OperationalError
| TypeError.

Inductive result (A : Type) : Type :=
| Ok (a : A)
| Raise (e : exn).
Arguments Ok {A} a.
Arguments Raise {A} e.

Definition bind {A B : Type} (m : result A) (k : A -> result B) : result B :=
  match m with
  | Ok a => k a
  | Raise e => Raise e
  end.

Notation "x <- m ;; k" := (bind m (fun x => k))
  (at level 61, m at next level, right associativity).

(** The double quote character. *)
Definition dquote : string := String (ascii_of_N 34) EmptyString.

Definition hex_digit (n : N) : ascii :=
  ascii_of_N (if (n <? 10)%N then 48 + n else 87 + n).

(** One character of a JSON string under [ensure_ascii=True]. *)
Definition json_escape_char (c : ascii) : string :=
  let n := N_of_ascii c in
  if (n =? 34)%N then "\" ++ dquote
  else if (n =? 92)%N then "\\"
  else if (n =? 10)%N then "\n"
  else if (n =? 13)%N then "\r"
  else if (n =? 9)%N then "\t"
  else if (n =? 8)%N then "\b"
  else if (n =? 12)%N then "\f"
  else if ((32 <=? n) && (n <=? 126))%N then String c EmptyString
  else "\u00" ++ String (hex_digit (n / 16)) (String (hex_digit (n mod 16)) EmptyString).

Fixpoint json_escape (s : string) : string :=
  match s with
  | EmptyString => EmptyString
  | String c s' => json_escape_char c ++ json_escape s'
  end.

Definition json_string (s : string) : string :=
  dquote ++ json_escape s ++ dquote.

(** [json.dumps] of a list of strings. *)
Definition json_dumps (l : list string) : string :=
  "[" ++ String.concat ", " (map json_string l) ++ "]".

(** [str(n)] *)
Definition str_of_int (n : Z) : string :=
  DecimalString.NilZero.string_of_int (Z.to_int n).

End python.

(* ================================================================== *)
(** * memory.py: [SimpleMemory] *)
(* ================================================================== *)

Module memory.
Import text sqlite storage python.

(** A row of the SELECT of [recall]: the columns of [m.*] and the two
    computed ones.  (The dict [recall] returns carries the same row with
    its [tags] column passed through [json.loads].) *)
Record RecallRow : Type := {
  r_row : MemoryRow;
  r_age_days : option Q;
  r_recency_score : option Q
}.

(** [SimpleMemory.remember]: [memory_id] is the value of [uuid.uuid4()],
    [now] that of [time.time()]; [tags] is [None] or a list.  The INSERT
    fails on the PRIMARY KEY when [memory_id] is already in the table. *)
Definition remember (st : Store) (memory_id : string) (now : Q)
  (content : string) (tags : option (list string)) (importance : string)
  : result (Store * string) :=
  let tags_json := json_dumps (match tags with Some l => l | None => [] end) in
  if existsb (fun m => String.eqb (m_id m) memory_id) (memories st)
  then Raise IntegrityError
  else
    let new := {| m_rowid := next_rowid (map m_rowid (memories st));
                  m_id := memory_id; m_content := content;
                  m_tags := tags_json; m_created_at := now;
                  m_importance := importance |} in
    Ok (set_memories st (memories st ++ [new])%list
                     (memories_ai (memories_fts st) new),
        memory_id).

(** The SELECT list of [recall] on one row of [memories]. *)
Definition select_recall (now : Q) (m : MemoryRow) : RecallRow :=
  {| r_row := m;
     r_age_days := age_days now (m_created_at m);
     r_recency_score := recency_score now (m_created_at m) |}.

(** The rows of [memories JOIN memories_fts ON m.rowid = memories_fts.rowid
    WHERE memories_fts MATCH q]: the rows of [memories], in rowid order,
    whose rowid the index produces for [q]. *)
Definition matching `{Fts5} (st : Store) (q : fts5_query) : list MemoryRow :=
  filter (fun m => fts_match q (memories_fts st) (m_rowid m)) (memories st).

(** [SimpleMemory.recall]; [now] is the clock at the time of the query.
    Under LIMIT 0 SQLite returns no row without starting the scan of
    [memories_fts], so the query is not parsed. *)
Definition recall `{Fts5} (st : Store) (now : Q) (query : string)
  (limit : Z) : result (list RecallRow) :=
  if (limit =? 0)%Z then Ok []
  else
    match fts5_parse query with
    | None => Raise OperationalError
    | Some q =>
        Ok (sqlite.limit limit
              (order_by_desc r_recency_score
                 (map (select_recall now) (matching st q))))
    end.

(** [DELETE FROM memories WHERE p]: the rows that satisfy [p] leave the
    table one by one, each followed by the trigger [memories_ad]; [kept] are
    the rows before the scan position that stay.  Returns the table, the
    index and the number of rows deleted. *)
Fixpoint delete_where (p : MemoryRow -> bool) (kept rows : list MemoryRow)
  (idx : list FtsEntry) : list MemoryRow * list FtsEntry * Z :=
  match rows with
  | [] => (kept, idx, 0%Z)
  | old :: rows' =>
      if p old then
        let '(mem, idx', n) :=
          delete_where p kept rows' (memories_ad (kept ++ rows')%list idx old)
        in (mem, idx', (n + 1)%Z)
      else delete_where p (kept ++ [old])%list rows' idx
  end.

(** [DELETE FROM memories WHERE content LIKE pattern] run to its end:
    the store after it and the number of rows deleted. *)
Definition delete_like (st : Store) (pattern : string) : Store * Z :=
  let '(mem, idx, count) :=
    delete_where (fun m => like pattern (m_content m)) []
                 (memories st) (memories_fts st) in
  (set_memories st mem idx, count).

(** [SimpleMemory.forget]: [DELETE FROM memories WHERE content LIKE ?] with
    the parameter [f"%{query}%"]; returns [cursor.rowcount].  LIKE is
    evaluated on the first row of the table, if there is one, and fails
    there on a pattern that is too long: the statement then raises
    [sqlite3.OperationalError] and deletes nothing. *)
Definition forget (st : Store) (query : string) : result (Store * Z) :=
  let pattern := "%" ++ query ++ "%" in
  match memories st with
  | [] => Ok (delete_like st pattern)
  | _ :: _ =>
      if like_too_complex pattern then Raise OperationalError
      else Ok (delete_like st pattern)
  end.

(** [SimpleMemory.store]: [INSERT OR REPLACE INTO artifacts]; the rows in
    conflict with the new one, on the PRIMARY KEY [id] or on the UNIQUE
    [name], are deleted before it is inserted. *)
Definition store (st : Store) (artifact_id : string) (now : Q)
  (name content : string) : Store * string :=
  let size := Z.of_nat (String.length content) in
  let new := {| a_id := artifact_id; a_name := name; a_content := content;
                a_size := size; a_created_at := now |} in
  let others :=
    filter (fun a => negb (String.eqb (a_id a) artifact_id
                           || String.eqb (a_name a) name)) (artifacts st) in
  (set_artifacts st (others ++ [new])%list, artifact_id).

(** [SimpleMemory.retrieve]: [SELECT content FROM artifacts WHERE name = ?]
    and [fetchone()]; [None] when there is no such row. *)
Definition retrieve (st : Store) (name : string) : option string :=
  match find (fun a => String.eqb (a_name a) name) (artifacts st) with
  | Some row => Some (a_content row)
  | None => None
  end.

(** The dict of [SimpleMemory.status], without [db_path]. *)
Record Status : Type := {
  s_memories : Z;
  s_artifacts : Z;
  s_unresolved_errors : Z;
  s_mode : string
}.

Definition status (st : Store) : Status :=
  {| s_memories := Z.of_nat (List.length (memories st));
     s_artifacts := Z.of_nat (List.length (artifacts st));
     s_unresolved_errors :=
       Z.of_nat (List.length
                   (filter (fun e => (e_resolved e =? 0)%Z) (errors st)));
     s_mode := modes.dict_get (config st) "current_mode" "coding" |}.

End memory.

(* ================================================================== *)
(** * errors.py: [ErrorMemory] *)
(* ================================================================== *)

Module errors.
Import sqlite storage.

(** [ErrorMemory.log_error]: the AUTOINCREMENT id is one more than the
    largest id the table ever held; [resolved] takes its DEFAULT 0. *)
Definition log_error (st : Store) (now : Q) (action error context : string)
  : Store * Z :=
  let error_id :=
    (Z.max (errors_seq st) (max_rowid (map e_id (storage.errors st))) + 1)%Z in
  let new := {| e_id := error_id; e_action := action; e_error := error;
                e_context := context; e_created_at := now;
                e_resolved := 0 |} in
  (set_errors st (storage.errors st ++ [new])%list error_id, error_id).

(** [UPDATE errors SET resolved = 1] on one row. *)
Definition set_resolved (e : ErrorRow) : ErrorRow :=
  {| e_id := e_id e; e_action := e_action e; e_error := e_error e;
     e_context := e_context e; e_created_at := e_created_at e;
     e_resolved := 1 |}.

(** [ErrorMemory.resolve_error]: [UPDATE errors SET resolved = 1 WHERE
    id = ?], then [cursor.rowcount > 0].  [resolution] is only printed. *)
Definition resolve_error (st : Store) (error_id : Z) (resolution : string)
  : Store * bool :=
  let rowcount :=
    List.length (filter (fun e => (e_id e =? error_id)%Z) (storage.errors st)) in
  let errs :=
    map (fun e => if (e_id e =? error_id)%Z then set_resolved e else e)
        (storage.errors st) in
  (set_errors st errs (errors_seq st), (0 <? rowcount)%nat).

(** [ErrorMemory.get_recent_errors]: [SELECT * FROM errors (WHERE resolved
    = 0) ORDER BY created_at DESC LIMIT ?]. *)
Definition get_recent_errors (st : Store) (limit : Z) (unresolved_only : bool)
  : list ErrorRow :=
  let rows :=
    if unresolved_only
    then filter (fun e => (e_resolved e =? 0)%Z) (storage.errors st)
    else storage.errors st in
  sqlite.limit limit (order_by_desc (fun e => Some (e_created_at e)) rows).

End errors.

(* ================================================================== *)
(** * simplecontext.py: the tools in front of [SimpleMemory] *)
(* ================================================================== *)

Module simplecontext.
Import text storage python.

Definition MAX_CONTENT_LENGTH : Z := 100000.
Definition MAX_QUERY_LENGTH : Z := 1000.

(** [re.search(pattern, content)] of Python's regular expressions. *)
Class Regex : Type := {
  re_search : string -> string -> bool
}.

Definition SENSITIVE_PATTERNS : list string :=
  [ "(?i)(password|passwd|pwd)\s*[:=]\s*[\'" ++ dquote
      ++ "]?[\w@#$%^&*()_+=\-[\]{};:,.<>?/]+";
    "(?i)(api[_-]?key|apikey)\s*[:=]\s*[\'" ++ dquote ++ "]?[\w\-]+";
    "(?i)(secret|token|bearer)\s*[:=]\s*[\'" ++ dquote ++ "]?[\w\-]+";
    "(?i)(credentials?|auth)\s*[:=]\s*[\'" ++ dquote
      ++ "]?[\w@#$%^&*()_+=\-[\]{};:,.<>?/]+" ].

(** [validate_input]; its arguments are strings, so the [None] and
    [isinstance] tests pass. *)
Definition validate_input (content field_name : string) (max_length : Z)
  : result unit :=
  if String.eqb (strip content) ""
  then Raise (ValueError (field_name ++ " cannot be empty"))
  else if (max_length <? Z.of_nat (String.length content))%Z
  then Raise (ValueError (field_name ++ " exceeds maximum length of "
                            ++ str_of_int max_length ++ " characters"))
  else Ok tt.

(** [check_sensitive_data]: is there a warning? *)
Definition check_sensitive_data `{Regex} (content : string) : bool :=
  existsb (fun pattern => re_search pattern content) SENSITIVE_PATTERNS.

(** What a tool returns: its answer, or the text of one of its [except]
    clauses, "Error: {e}" for a [ValueError], "Database error: ..." for a
    [sqlite3.Error] and "Unexpected error: {e}" for any other exception. *)
Inductive reply (A : Type) : Type :=
| Answer (a : A)
| ErrorReply (msg : string)
| DatabaseErrorReply
| UnexpectedErrorReply.
Arguments Answer {A} a.
Arguments ErrorReply {A} msg.
Arguments DatabaseErrorReply {A}.
Arguments UnexpectedErrorReply {A}.

Definition except {A : Type} (e : exn) : reply A :=
  match e with
  | ValueError msg => ErrorReply msg
  | IntegrityError | OperationalError => DatabaseErrorReply
  | TypeError => UnexpectedErrorReply
  end.

(** The [try] block of the tool [remember]; the answer is the memory id
    and whether the warning line is appended. *)
Definition remember_try `{Regex} (st : Store) (memory_id : string) (now : Q)
  (content : string) (tags : option (list string))
  : result (Store * (string * bool)) :=
  _ <- validate_input content "content" MAX_CONTENT_LENGTH ;;
  let warning := check_sensitive_data content in
  r <- memory.remember st memory_id now content
         (Some (match tags with Some l => l | None => [] end)) "medium" ;;
  Ok (fst r, (snd r, warning)).

Definition remember `{Regex} (st : Store) (memory_id : string) (now : Q)
  (content : string) (tags : option (list string))
  : Store * reply (string * bool) :=
  match remember_try st memory_id now content tags with
  | Ok (st', a) => (st', Answer a)
  | Raise e => (st, except e)
  end.

(** The rendering loop of the tool [recall] starts each line with
    [int(r['age_days'])], which raises [TypeError] on a row whose age is
    NULL. *)
Definition render_rows (rows : list memory.RecallRow)
  : result (list memory.RecallRow) :=
  if existsb (fun r => match memory.r_age_days r with
                       | None => true
                       | Some _ => false
                       end) rows
  then Raise TypeError
  else Ok rows.

(** The [try] block of the tool [recall]; the answer is the list of rows
    rendered, an empty list being rendered "No memories found for
    '{query}'". *)
Definition recall_try `{Fts5} (st : Store) (now : Q) (query : string)
  (limit : Z) : result (list memory.RecallRow) :=
  _ <- validate_input query "query" MAX_QUERY_LENGTH ;;
  if ((limit <? 1) || (100 <? limit))%Z
  then Raise (ValueError "limit must be between 1 and 100")
  else
    results <- memory.recall st now query limit ;;
    render_rows results.

Definition recall `{Fts5} (st : Store) (now : Q) (query : string)
  (limit : Z) : reply (list memory.RecallRow) :=
  match recall_try st now query limit with
  | Ok rows => Answer rows
  | Raise e => except e
  end.

End simplecontext.

(* ================================================================== *)
(** * Running the model: sequences of operations, and an engine for the
      examples *)
(* ================================================================== *)

Module ledger.
Import text storage python.

(** The Memory Ledger operations that write. *)
Inductive op : Type :=
| Remember (memory_id : string) (now : Q) (content : string)
    (tags : option (list string)) (importance : string)
| Forget (query : string).

(** One operation; one that raises leaves the store as it was. *)
Definition step (st : Store) (o : op) : Store :=
  match o with
  | Remember memory_id now content tags importance =>
      match memory.remember st memory_id now content tags importance with
      | Ok (st', _) => st'
      | Raise _ => st
      end
  | Forget query =>
      match memory.forget st query with
      | Ok (st', _) => st'
      | Raise _ => st
      end
  end.

Definition run (ops : list op) : Store := fold_left step ops init_schema.

(** The one-word fragment of FTS5 with its default tokenizer, on ASCII
    text: tokens are the maximal runs of letters and digits, folded to lower
    case; a query made of one such run (other than the operators AND, OR,
    NOT) matches whatever has that token in its content or tags.  Any other
    query is outside the fragment and is answered as a malformed one. *)
Definition is_alnum (c : ascii) : bool :=
  let n := N_of_ascii c in
  (((48 <=? n) && (n <=? 57)) || ((65 <=? n) && (n <=? 90))
   || ((97 <=? n) && (n <=? 122)))%N.

Fixpoint tokens_from (cur : string) (s : string) : list string :=
  match s with
  | EmptyString =>
      match cur with EmptyString => [] | _ => [cur] end
  | String c s' =>
      if is_alnum c
      then tokens_from (cur ++ String (lower_char c) EmptyString) s'
      else match cur with
           | EmptyString => tokens_from EmptyString s'
           | _ => cur :: tokens_from EmptyString s'
           end
  end.

Definition tokens (s : string) : list string := tokens_from EmptyString s.

Fixpoint all_alnum (s : string) : bool :=
  match s with
  | EmptyString => true
  | String c s' => is_alnum c && all_alnum s'
  end.

Definition one_word_parse (query : string) : option string :=
  if String.eqb query "" || negb (all_alnum query)
     || String.eqb query "AND" || String.eqb query "OR"
     || String.eqb query "NOT"
  then None
  else Some (lower query).

Definition one_word_eval (q : string) (docs : list (string * string)) : bool :=
  existsb (fun d => existsb (String.eqb q) (tokens (fst d))
                    || existsb (String.eqb q) (tokens (snd d))) docs.

Definition one_word : Fts5 :=
  {| fts5_query := string;
     fts5_parse := one_word_parse;
     fts5_eval := one_word_eval |}.

(** The stores of the examples.  One memory: *)
Definition mysql_ledger : Store :=
  run [Remember "id-1" 1700000000 "Use MySQL" None "medium"].

(** One memory with a NUL character in its content. *)
Definition nul : string := String (ascii_of_N 0) EmptyString.

Definition nul_ledger : Store :=
  run [Remember "id-1" 1700000000 ("Use My" ++ nul ++ "SQL") None "medium"].

(** Two memories remembered at [t1] and [t2], as in [test_temporal_decay]. *)
Definition two_facts (t1 t2 : Q) : Store :=
  run [Remember "id-1" t1 "Old fact" (Some ["test"]) "medium";
       Remember "id-2" t2 "Recent fact" (Some ["test"]) "medium"].



(** Two facts remembered a 2048th and a 1024th of a second after
    1700000000.  SQLite puts both at the first millisecond after that
    second, the earlier one by the rounding of its binary64 addition. *)
Definition same_ms : Store :=
  two_facts (1700000000 + (1 # 2048)) (1700000000 + (1 # 1024)).

(** Two facts, the second remembered a 2048th of a second after the first:
    SQLite dates it one millisecond later. *)
Definition rounded_up : Store :=
  two_facts 1700000000 (1700000000 + (1 # 2048)).

(** A memory remembered in the last half millisecond of the year 9999, an
    instant [julianday] answers NULL for, and one remembered after it with
    the clock set back. *)
Definition undated : Store :=
  run [Remember "id-1" (253402300800 - (1 # 2048)) "Late fact" None "medium";
       Remember "id-2" 1700000000 "Recent fact" (Some ["test"]) "medium"].

(** Two facts remembered a second apart, and their rows. *)
Definition apart : Store := two_facts 1700000000 1700000001.

Definition old_fact (t : Q) : MemoryRow :=
  {| m_rowid := 1; m_id := "id-1"; m_content := "Old fact";
     m_tags := json_dumps ["test"]; m_created_at := t;
     m_importance := "medium" |}.

Definition recent_fact (t : Q) : MemoryRow :=
  {| m_rowid := 2; m_id := "id-2"; m_content := "Recent fact";
     m_tags := json_dumps ["test"]; m_created_at := t;
     m_importance := "medium" |}.

(** A journal with the one error of [test_error_tracking]. *)
Definition npm_journal : Store :=
  fst (errors.log_error init_schema 1700000000 "npm install"
         "EACCES permission denied" "").

(** A regular-expression engine that finds nothing, to run the tools. *)
Definition no_match : simplecontext.Regex :=
  {| simplecontext.re_search := fun _ _ => false |}.

End ledger.

(* ================================================================== *)
(** * The vocabulary of the statements *)
(* ================================================================== *)

Module notions.
Import text sqlite storage memory.

(** [a] comes at or above [b] in an ordering by [key] DESC. *)
Definition ranks_ge {A : Type} (key : A -> option Q) (a b : A) : Prop :=
  key_ge (key a) (key b) = true.

(** The rows whose key is SQL-equal to [k]. *)
Definition same_key {A : Type} (key : A -> option Q) (k : option Q) (x : A)
  : bool :=
  key_ge (key x) k && key_ge k (key x).

(** The artifacts stored under [name]. *)
Definition stored_under (st : Store) (name : string) : list ArtifactRow :=
  filter (fun a => String.eqb (a_name a) name) (artifacts st).

(** A run of [store] calls, each with its uuid, clock, name and content. *)
Definition store_all (calls : list (string * Q * string * string))
  (st : Store) : Store :=
  fold_left (fun s c =>
               let '(artifact_id, now, name, content) := c in
               fst (store s artifact_id now name content)) calls st.

(** No NUL character in [s]. *)
Fixpoint no_nul (s : string) : bool :=
  match s with
  | EmptyString => true
  | String c s' => negb (N_of_ascii c =? 0)%N && no_nul s'
  end.

(** No [%] and no [_] in [s]. *)
Fixpoint no_wildcard (s : string) : bool :=
  match s with
  | EmptyString => true
  | String c s' =>
      negb (Ascii.eqb c "%") && negb (Ascii.eqb c "_") && no_wildcard s'
  end.

(** The denominator [1.0 + age_days * 0.1] at an age of [ms] milliseconds. *)
Definition denominator (ms : Z) : Q :=
  (1 + inject_Z ms / inject_Z MS_PER_DAY * (1 # 10))%Q.

(** The rowids of [memories] are pairwise distinct. *)
Definition rowids_distinct (st : Store) : Prop :=
  NoDup (map m_rowid (memories st)).

End notions.

(* ================================================================== *)
(** * simplecontext.py: the tools [forget], [store] and [retrieve] *)
(* ================================================================== *)

Module mcp.
Import text storage python simplecontext.

(** The [try] block of the tool [forget]; the answer is the count. *)
Definition forget_try (st : Store) (query : string) : result (Store * Z) :=
  _ <- validate_input query "query" MAX_QUERY_LENGTH ;;
  memory.forget st query.

Definition forget (st : Store) (query : string) : Store * reply Z :=
  match forget_try st query with
  | Ok (st', count) => (st', Answer count)
  | Raise e => (st, except e)
  end.

(** The [try] block of the tool [store]; the answer is [len(content)] and
    whether the warning line is appended (the artifact id is dropped). *)
Definition store_try `{Regex} (st : Store) (artifact_id : string) (now : Q)
  (name content : string) : result (Store * (Z * bool)) :=
  _ <- validate_input name "name" 255 ;;
  _ <- validate_input content "content" (MAX_CONTENT_LENGTH * 10) ;;
  let warning := check_sensitive_data content in
  let st' := fst (memory.store st artifact_id now name content) in
  Ok (st', (Z.of_nat (String.length content), warning)).

Definition store `{Regex} (st : Store) (artifact_id : string) (now : Q)
  (name content : string) : Store * reply (Z * bool) :=
  match store_try st artifact_id now name content with
  | Ok (st', a) => (st', Answer a)
  | Raise e => (st, except e)
  end.

(** The [try] block of the tool [retrieve]: [if content:] sends [None] and
    the empty string alike to the answer "Artifact '{name}' not found",
    here [None]. *)
Definition retrieve_try (st : Store) (name : string)
  : result (option string) :=
  _ <- validate_input name "name" 255 ;;
  match memory.retrieve st name with
  | Some content =>
      if String.eqb content "" then Ok None else Ok (Some content)
  | None => Ok None
  end.

Definition retrieve (st : Store) (name : string) : reply (option string) :=
  match retrieve_try st name with
  | Ok a => Answer a
  | Raise e => except e
  end.

End mcp.

(* ================================================================== *)
(** * Running the error journal *)
(* ================================================================== *)

Module journal.
Import storage.

(** The Error Journal operations that write. *)
Inductive op : Type :=
| Log (now : Q) (action error context : string)
| Resolve (error_id : Z) (resolution : string).

Definition step (st : Store) (o : op) : Store :=
  match o with
  | Log now action error context =>
      fst (errors.log_error st now action error context)
  | Resolve error_id resolution =>
      fst (errors.resolve_error st error_id resolution)
  end.

Definition run (ops : list op) : Store := fold_left step ops init_schema.

(** The number of [Log] operations among [ops]. *)
Definition logged (ops : list op) : nat :=
  List.length (filter (fun o => match o with Log _ _ _ _ => true
                                           | Resolve _ _ => false end) ops).

(** The ids 1, 2, ..., [n]. *)
Definition ids_upto (n : nat) : list Z := map Z.of_nat (seq 1 n).

End journal.

(* ================================================================== *)
(** * More vocabulary for the statements *)
(* ================================================================== *)

Module notions2.
Import text sqlite storage python memory.

(** The index entry the trigger [memories_ai] writes for a row. *)
Definition index_entry (m : MemoryRow) : FtsEntry :=
  {| f_rowid := m_rowid m; f_content := m_content m; f_tags := m_tags m |}.

(** A string of [%] characters only. *)
Fixpoint only_percent (s : string) : bool :=
  match s with
  | EmptyString => true
  | String c s' => Ascii.eqb c "%" && only_percent s'
  end.

(** The instant [julianday(created_at, 'unixepoch')] of a row is the
    millisecond [c]. *)
Definition created_ms (m : MemoryRow) (c : Z) : Prop :=
  julianday_unixepoch_ms (m_created_at m) = Some c.


(** The index is in step with the table: under the rowid of each row of
    [memories] it holds the content and tags of that row and nothing else. *)
Definition index_in_step (st : Store) : Prop :=
  forall m, In m (memories st) ->
    indexed_under (memories_fts st) (m_rowid m) = [(m_content m, m_tags m)].

(** A run of [remember] operations alone. *)
Definition only_remembers (ops : list ledger.op) : bool :=
  forallb (fun o => match o with
                    | ledger.Remember _ _ _ _ _ => true
                    | ledger.Forget _ => false
                    end) ops.

(** Newest first on [created_at]. *)
Definition newer_or_equal (a b : ErrorRow) : Prop :=
  (e_created_at b <= e_created_at a)%Q.

End notions2.

(* ================================================================== *)
(** * Running everything that writes *)
(* ================================================================== *)

Module system.
Import storage.

(** The operations of [SimpleMemory] and [ErrorMemory] that write to the
    database, each with its inputs. *)
Inductive write : Type :=
| Ledger (o : ledger.op)
| Vault (artifact_id : string) (now : Q) (name content : string)
| Journal (o : journal.op).

Definition step (st : Store) (w : write) : Store :=
  match w with
  | Ledger o => ledger.step st o
  | Vault artifact_id now name content =>
      fst (memory.store st artifact_id now name content)
  | Journal o => journal.step st o
  end.

Definition run (ws : list write) : Store := fold_left step ws init_schema.

(** The row [SimpleMemory.remember] inserts. *)
Definition remembered_row (st : Store) (memory_id : string) (now : Q)
  (content : string) (tags : option (list string)) (importance : string)
  : MemoryRow :=
  {| m_rowid := next_rowid (map m_rowid (memories st));
     m_id := memory_id; m_content := content;
     m_tags := python.json_dumps (match tags with Some l => l | None => [] end);
     m_created_at := now; m_importance := importance |}.

End system.

(* ================================================================== *)
(** * Properties *)
(* ================================================================== *)

Section TextFacts.
Import text.

Lemma any_suffix_true (f : string -> bool) (s : string) :
  any_suffix f s = true <-> exists x y, s = x ++ y /\ f y = true.
Proof.
  induction s as [|c s IH]; simpl.
  - rewrite orb_false_r. split.
    + intros H. exists "", "". auto.
    + intros (x & y & E & H). destruct x; simpl in E; [subst; auto | discriminate].
  - rewrite orb_true_iff, IH. split.
    + intros [H | (x & y & E & H)].
      * exists "", (String c s). auto.
      * exists (String c x), y. simpl. subst. auto.
    + intros (x & y & E & H). destruct x as [|d x]; simpl in E.
      * subst. auto.
      * injection E as -> ->. right. eauto.
Qed.

Lemma startswith_true (p s : string) :
  startswith p s = true <-> exists y, s = p ++ y.
Proof.
  revert s. induction p as [|a p IH]; intros s; simpl.
  - split; eauto.
  - destruct s as [|b s].
    + split; [discriminate | intros (y & E); discriminate].
    + rewrite andb_true_iff, IH, Ascii.eqb_eq. split.
      * intros (-> & y & ->). eauto.
      * intros (y & E). injection E as -> ->. eauto.
Qed.

(** [contains] is literal substring containment. *)
Lemma contains_true (needle hay : string) :
  contains needle hay = true <-> exists x y, hay = x ++ needle ++ y.
Proof.
  unfold contains. rewrite any_suffix_true. split.
  - intros (x & y & -> & H). apply startswith_true in H as (z & ->). eauto.
  - intros (x & y & ->). exists x, (needle ++ y). split; auto.
    apply startswith_true. eauto.
Qed.

End TextFacts.

Section ModesFacts.
Import text modes.

Lemma scan_keywords_debugging (ks : list string) (m : string) :
  scan_keywords ks m = "debugging" <->
  exists k, In k ks /\ contains k m = true.
Proof.
  induction ks as [|k ks IH]; simpl.
  - split; [discriminate | intros (k & [] & _)].
  - destruct (contains k m) eqn:E.
    + split; eauto.
    + rewrite IH. split.
      * intros (k' & Hin & H). eauto.
      * intros (k' & [<- | Hin] & H); [congruence | eauto].
Qed.

Lemma scan_keywords_cases (ks : list string) (m : string) :
  scan_keywords ks m = "debugging" \/ scan_keywords ks m = "coding".
Proof.
  induction ks as [|k ks IH]; simpl; auto.
  destruct (contains k m); auto.
Qed.

Lemma str_lower_app (a b : string) :
  str_lower (a ++ b) = str_lower a ++ str_lower b.
Proof.
  induction a as [|c a IH]; simpl; [|rewrite IH]; reflexivity.
Qed.

Lemma str_lower_upper_char (c : ascii) :
  str_lower_char (upper_char c) = str_lower_char c.
Proof. destruct c as [[] [] [] [] [] [] [] []]; reflexivity. Qed.

Lemma str_lower_upper (s : string) : str_lower (upper s) = str_lower s.
Proof.
  induction s as [|c s IH]; simpl; [|rewrite str_lower_upper_char, IH];
    reflexivity.
Qed.

Lemma keywords_are_lower :
  Forall (fun keyword => str_lower keyword = keyword) DEBUG_KEYWORDS.
Proof. repeat constructor. Qed.

(** C8.  [detect_mode] answers "debugging" exactly when one of the
    [DEBUG_KEYWORDS] occurs as a substring of the lower-cased message and
    "coding" exactly when none does.  The scan does not see letter case: the
    keywords are in lower case, a message and its upper-case form get the same
    answer, and a keyword written in upper case anywhere in a message makes it
    a debugging one.  The three documented messages classify as debugging,
    coding and debugging, also when written in capitals. *)
Theorem detect_mode_keyword_scan :
  (forall message,
      detect_mode message = "debugging" <->
      exists keyword x y,
        In keyword DEBUG_KEYWORDS /\ str_lower message = x ++ keyword ++ y) /\
  (forall message,
      detect_mode message = "coding" <->
      forall keyword, In keyword DEBUG_KEYWORDS ->
        ~ exists x y, str_lower message = x ++ keyword ++ y) /\
  (forall m1 m2, str_lower m1 = str_lower m2 ->
                 detect_mode m1 = detect_mode m2) /\
  (forall message, detect_mode (upper message) = detect_mode message) /\
  (forall keyword x y, In keyword DEBUG_KEYWORDS ->
      detect_mode (x ++ upper keyword ++ y) = "debugging") /\
  Forall (fun keyword => str_lower keyword = keyword) DEBUG_KEYWORDS /\
  str_lower "ABCDEFGHIJKLMNOPQRSTUVWXYZ" = "abcdefghijklmnopqrstuvwxyz" /\
  detect_mode "The tests are failing" = "debugging" /\
  detect_mode "Add a login feature" = "coding" /\
  detect_mode "Fix the bug in auth.py" = "debugging" /\
  detect_mode "THE TESTS ARE FAILING" = "debugging" /\
  detect_mode "ADD A LOGIN FEATURE" = "coding" /\
  detect_mode "FIX THE BUG IN AUTH.PY" = "debugging".
Proof.
  assert (D : forall message,
      detect_mode message = "debugging" <->
      exists keyword x y,
        In keyword DEBUG_KEYWORDS /\ str_lower message = x ++ keyword ++ y).
  { intros m. unfold detect_mode. rewrite scan_keywords_debugging. split.
    - intros (k & Hin & H). apply contains_true in H as (x & y & H). eauto 6.
    - intros (k & x & y & Hin & H). exists k. split; auto.
      apply contains_true. eauto. }
  split; [exact D|].
  split; [|split; [|split; [|split; [|split;
    [exact keywords_are_lower | repeat split; reflexivity]]]]].
  - intros m. split.
    + intros Hc k Hin (x & y & H).
      assert (Hd : detect_mode m = "debugging") by (apply D; eauto 6).
      rewrite Hc in Hd. discriminate.
    + intros Hn. unfold detect_mode.
      destruct (scan_keywords_cases DEBUG_KEYWORDS (str_lower m))
        as [Hd | Hc]; auto.
      exfalso. apply (D m) in Hd as (k & x & y & Hin & H).
      apply (Hn k Hin). eauto.
  - intros m1 m2 E. unfold detect_mode. rewrite E. reflexivity.
  - intros m. unfold detect_mode. rewrite str_lower_upper. reflexivity.
  - intros k x y Hin. apply D. exists k, (str_lower x), (str_lower y).
    split; auto. rewrite !str_lower_app, str_lower_upper.
    pose proof keywords_are_lower as Hk. rewrite Forall_forall in Hk.
    rewrite (Hk k Hin). reflexivity.
Qed.

(** C9.  For both modes of [MODES] the budget has five fractions, and their
    binary64 sum is within [epsilon] of 1.0, in the order of the table and in
    every other order of summation. *)
Theorem budget_fractions_sum_to_one :
  forall mode, In mode ["coding"; "debugging"] ->
    let fractions := map snd (get_attention_budget mode) in
    List.length fractions = 5%nat /\
    sums_to_one fractions = true /\
    forallb sums_to_one (orders fractions) = true.
Proof.
  intros mode [<- | [<- | []]]; repeat split; vm_compute; reflexivity.
Qed.

Lemma budget_fractions_sum_to_one_witness :
  In "debugging" ["coding"; "debugging"] /\
  sums_to_one (map snd (get_attention_budget "debugging")) = true.
Proof.
  split; [simpl; auto|].
  apply (budget_fractions_sum_to_one "debugging"). simpl; auto.
Defined.

End ModesFacts.

(* ------------------------------------------------------------------ *)
(** ** LIMIT and ORDER BY *)

Section SqlFacts.
Import sqlite notions.

Context {A : Type} (key : A -> option Q).

Lemma In_limit (n : Z) (rows : list A) (x : A) :
  In x (limit n rows) -> In x rows.
Proof.
  unfold limit. destruct (n <? 0)%Z; auto.
  intros H. rewrite <- (firstn_skipn (Z.to_nat n) rows).
  apply in_or_app. auto.
Qed.

Lemma insert_desc_perm (x : A) (l : list A) :
  Permutation (insert_desc key x l) (x :: l).
Proof.
  induction l as [|y l IH]; simpl; auto.
  destruct (key_ge (key x) (key y)); auto.
  rewrite IH. apply perm_swap.
Qed.

Lemma order_by_desc_perm (l : list A) : Permutation (order_by_desc key l) l.
Proof.
  induction l as [|x l IH]; simpl; auto.
  rewrite insert_desc_perm. auto.
Qed.

Lemma In_order_by_desc (l : list A) (x : A) :
  In x (order_by_desc key l) <-> In x l.
Proof.
  split; apply Permutation_in;
    [apply order_by_desc_perm | symmetry; apply order_by_desc_perm].
Qed.

Lemma key_ge_refl (a : option Q) : key_ge a a = true.
Proof.
  destruct a as [x|]; simpl; auto. apply Qle_bool_iff, Qle_refl.
Qed.

Lemma key_ge_total (a b : option Q) : key_ge a b = false -> key_ge b a = true.
Proof.
  destruct a as [x|], b as [y|]; simpl; auto; try discriminate.
  intros H. apply Qle_bool_iff.
  destruct (Qlt_le_dec x y) as [L | L].
  - apply Qlt_le_weak, L.
  - apply Qle_bool_iff in L. congruence.
Qed.

Lemma key_ge_trans (a b c : option Q) :
  key_ge a b = true -> key_ge b c = true -> key_ge a c = true.
Proof.
  destruct a as [x|], b as [y|], c as [z|]; simpl; auto; try discriminate.
  rewrite !Qle_bool_iff. intros H1 H2. eapply Qle_trans; eauto.
Qed.

Lemma insert_desc_sorted (x : A) (l : list A) :
  StronglySorted (ranks_ge key) l -> StronglySorted (ranks_ge key) (insert_desc key x l).
Proof.
  induction 1 as [|y l Hs IH Hall]; simpl.
  - constructor; constructor.
  - destruct (key_ge (key x) (key y)) eqn:E.
    + constructor; [constructor; auto|].
      constructor; [exact E|].
      rewrite Forall_forall in *. intros z Hz.
      eapply key_ge_trans; [exact E | apply Hall, Hz].
    + constructor; auto.
      rewrite Forall_forall in *. intros z Hz.
      apply (Permutation_in _ (insert_desc_perm x l)) in Hz as [<- | Hz].
      * apply key_ge_total, E.
      * apply Hall, Hz.
Qed.

Lemma order_by_desc_sorted (l : list A) :
  StronglySorted (ranks_ge key) (order_by_desc key l).
Proof.
  induction l as [|x l IH]; simpl; [constructor|].
  apply insert_desc_sorted, IH.
Qed.

Lemma insert_desc_same_key (k : option Q) (x : A) (l : list A) :
  filter (same_key key k) (insert_desc key x l) = filter (same_key key k) (x :: l).
Proof.
  induction l as [|y l IH]; simpl; auto.
  destruct (key_ge (key x) (key y)) eqn:E; auto.
  simpl in *. rewrite IH.
  destruct (same_key key k x) eqn:Ex; auto.
  destruct (same_key key k y) eqn:Ey; auto.
  exfalso. unfold same_key in *.
  apply andb_true_iff in Ex as [X1 X2], Ey as [Y1 Y2].
  rewrite (key_ge_trans _ _ _ X1 Y2) in E. discriminate.
Qed.

(** The sort is stable: the rows of one key keep their scan order. *)
Lemma order_by_desc_stable (k : option Q) (l : list A) :
  filter (same_key key k) (order_by_desc key l) = filter (same_key key k) l.
Proof.
  induction l as [|x l IH]; simpl; auto.
  rewrite insert_desc_same_key. simpl. rewrite IH. reflexivity.
Qed.

Lemma sorted_nth_ranks (l : list A) (i j : nat) (a b : A) :
  StronglySorted (ranks_ge key) l -> (i < j)%nat ->
  nth_error l i = Some a -> nth_error l j = Some b -> ranks_ge key a b.
Proof.
  intros Hs. revert i j. induction Hs as [|y l Hs IH Hall]; intros i j Hij Ha Hb.
  - destruct i; discriminate.
  - destruct j as [|j]; [lia|]. simpl in Hb.
    destruct i as [|i]; simpl in Ha.
    + injection Ha as ->. rewrite Forall_forall in Hall.
      apply Hall. eapply nth_error_In; eauto.
    + apply (IH i j); auto. lia.
Qed.

End SqlFacts.

(* ------------------------------------------------------------------ *)
(** ** The artifact vault *)

Section VaultFacts.
Import storage memory notions.

Lemma stored_under_store (st : Store) (artifact_id : string) (now : Q)
  (name content : string) :
  stored_under (fst (store st artifact_id now name content)) name =
  [ {| a_id := artifact_id; a_name := name; a_content := content;
       a_size := Z.of_nat (String.length content); a_created_at := now |} ].
Proof.
  unfold stored_under, store. simpl. rewrite filter_app. simpl.
  rewrite String.eqb_refl.
  replace (filter _ (filter _ (artifacts st))) with (@nil ArtifactRow); auto.
  symmetry. induction (artifacts st) as [|a l IH]; simpl; auto.
  destruct (String.eqb (a_name a) name) eqn:E.
  - rewrite orb_true_r. simpl. auto.
  - destruct (String.eqb (a_id a) artifact_id); simpl; auto.
    rewrite E. auto.
Qed.

Lemma find_stored_under (st : Store) (name : string) :
  find (fun a => String.eqb (a_name a) name) (artifacts st) =
  hd_error (stored_under st name).
Proof.
  unfold stored_under. induction (artifacts st) as [|a l IH]; simpl; auto.
  destruct (String.eqb (a_name a) name); simpl; auto.
Qed.

Lemma store_names_NoDup (st : Store) (artifact_id : string) (now : Q)
  (name content : string) :
  NoDup (map a_name (artifacts st)) ->
  NoDup (map a_name (artifacts (fst (store st artifact_id now name content)))).
Proof.
  unfold store. simpl. intros H.
  rewrite map_app. simpl.
  apply NoDup_rev in H. rewrite <- (rev_involutive (_ ++ _)%list).
  apply NoDup_rev. rewrite rev_app_distr. simpl.
  constructor.
  - rewrite <- in_rev, in_map_iff. intros (a & E & Hin).
    apply filter_In in Hin as [_ Hf].
    rewrite E, String.eqb_refl, orb_true_r in Hf. discriminate.
  - apply NoDup_rev. apply NoDup_rev in H. rewrite rev_involutive in H.
    clear -H. induction (artifacts st) as [|a l IH]; simpl; auto.
    inversion H as [|? ? Hn Hl]; subst.
    destruct (negb _); simpl; auto.
    constructor; auto.
    rewrite in_map_iff. intros (b & E & Hin).
    apply filter_In in Hin as [Hin _].
    apply Hn. rewrite <- E. apply in_map, Hin.
Qed.

(** C6.  Two [store] calls under one name: after the second (as after the
    first) exactly one artifact is stored under the name, it holds the
    second content, [retrieve] returns that content, and the artifact count
    of [status] after the second call is not above the count after the
    first.  In every store reached from the empty one by [store] calls, no
    two artifacts share a name. *)
Theorem store_twice_keeps_one_artifact :
  forall (st : Store) (id1 id2 : string) (t1 t2 : Q) (name c1 c2 : string),
    let st1 := fst (store st id1 t1 name c1) in
    let st2 := fst (store st1 id2 t2 name c2) in
    List.length (stored_under st1 name) = 1%nat /\
    List.length (stored_under st2 name) = 1%nat /\
    map a_content (stored_under st2 name) = [c2] /\
    retrieve st2 name = Some c2 /\
    (s_artifacts (status st2) <= s_artifacts (status st1))%Z /\
    forall calls, NoDup (map a_name (artifacts (store_all calls init_schema))).
Proof.
  intros st id1 id2 t1 t2 name c1 c2 st1 st2.
  split; [unfold st1; rewrite stored_under_store; reflexivity|].
  split; [unfold st2; rewrite stored_under_store; reflexivity|].
  split; [unfold st2; rewrite stored_under_store; reflexivity|].
  split.
  { unfold retrieve. rewrite find_stored_under.
    unfold st2. rewrite stored_under_store. reflexivity. }
  split.
  { unfold status. simpl. apply inj_le.
    rewrite !length_app. simpl.
    rewrite filter_app, length_app. simpl.
    rewrite String.eqb_refl, orb_true_r. simpl.
    pose proof (filter_length_le
      (fun a => negb (String.eqb (a_id a) id2 || String.eqb (a_name a) name))
      (filter (fun a => negb (String.eqb (a_id a) id1
                              || String.eqb (a_name a) name)) (artifacts st))).
    lia. }
  intros calls.
  assert (G : forall s, NoDup (map a_name (artifacts s)) ->
                        NoDup (map a_name (artifacts (store_all calls s)))).
  { induction calls as [|[[[i t] n] c] calls IH]; intros s Hs; simpl; auto.
    apply IH, store_names_NoDup, Hs. }
  apply G. simpl. constructor.
Qed.

End VaultFacts.

(* ------------------------------------------------------------------ *)
(** ** The error journal *)

Section JournalFacts.
Import storage errors.

Lemma filter_none {A : Type} (p : A -> bool) (l : list A) :
  (forall x, In x l -> p x = false) -> filter p l = [].
Proof.
  induction l as [|x l IH]; simpl; intros H; auto.
  rewrite (H x) by auto. apply IH. auto.
Qed.

Lemma map_unless {A : Type} (p : A -> bool) (f : A -> A) (l : list A) :
  (forall x, In x l -> p x = false) ->
  map (fun x => if p x then f x else x) l = l.
Proof.
  induction l as [|x l IH]; simpl; intros H; auto.
  rewrite (H x) by auto. f_equal. apply IH. auto.
Qed.

Lemma set_errors_same (st : Store) :
  set_errors st (storage.errors st) (errors_seq st) = st.
Proof. destruct st; reflexivity. Qed.

(** C7.  [resolve_error] on an id no row of [errors] carries returns
    [False] and leaves the store as it is.  On an id some row carries it
    returns [True]; afterwards every row with that id has [resolved = 1],
    every other row is as before, and [get_recent_errors] with
    [unresolved_only=True] returns no row with that id, whatever its
    limit. *)
Theorem resolve_error_marks_resolved :
  forall (st : Store) (error_id : Z) (resolution : string),
    let st' := fst (resolve_error st error_id resolution) in
    let found := snd (resolve_error st error_id resolution) in
    ((forall e, In e (storage.errors st) -> e_id e <> error_id) ->
     found = false /\ st' = st) /\
    ((exists e, In e (storage.errors st) /\ e_id e = error_id) ->
     found = true /\
     (forall e, In e (storage.errors st') -> e_id e = error_id ->
                e_resolved e = 1%Z) /\
     (forall e, e_id e <> error_id ->
                (In e (storage.errors st') <-> In e (storage.errors st))) /\
     List.length (storage.errors st') = List.length (storage.errors st) /\
     (forall limit e, In e (get_recent_errors st' limit true) ->
                      e_id e <> error_id)).
Proof.
  intros st error_id resolution st' found.
  assert (Hmap : storage.errors st' =
                 map (fun e => if (e_id e =? error_id)%Z
                               then set_resolved e else e) (storage.errors st))
    by reflexivity.
  split.
  - intros Hno.
    assert (Hp : forall e, In e (storage.errors st) ->
                           (e_id e =? error_id)%Z = false).
    { intros e He. apply Z.eqb_neq, Hno, He. }
    split.
    + unfold found, resolve_error. simpl.
      rewrite (filter_none _ _ Hp). reflexivity.
    + unfold st', resolve_error. simpl.
      rewrite (map_unless _ _ _ Hp). apply set_errors_same.
  - intros (e0 & Hin0 & Hid0).
    assert (Hres : forall e, In e (storage.errors st') -> e_id e = error_id ->
                             e_resolved e = 1%Z).
    { intros e He Hid. rewrite Hmap in He. apply in_map_iff in He as (e1 & E & _).
      destruct (e_id e1 =? error_id)%Z eqn:E1; subst e; auto.
      apply Z.eqb_neq in E1. contradiction. }
    split; [|split; [exact Hres|split; [|split]]].
    + unfold found, resolve_error. simpl.
      assert (Hf : In e0 (filter (fun e => (e_id e =? error_id)%Z)
                                 (storage.errors st))).
      { apply filter_In. split; auto. apply Z.eqb_eq, Hid0. }
      destruct (filter _ (storage.errors st)); [contradiction | reflexivity].
    + intros e Hne. rewrite Hmap, in_map_iff. split.
      * intros (e1 & E & Hin1).
        destruct (Z.eqb_spec (e_id e1) error_id) as [E1 | E1].
        -- subst e. simpl in Hne. contradiction.
        -- subst e. auto.
      * intros Hin. exists e. split; auto.
        destruct (Z.eqb_spec (e_id e) error_id); [contradiction | auto].
    + rewrite Hmap. apply length_map.
    + intros limit e He Hid.
      unfold get_recent_errors in He.
      apply In_limit, In_order_by_desc, filter_In in He as [He Hz].
      rewrite (Hres e He Hid) in Hz. discriminate.
Qed.

End JournalFacts.

(* ------------------------------------------------------------------ *)
(** ** LIKE *)

Section LikeFacts.
Import text sqlite notions.

Lemma append_assoc (a b c : string) : (a ++ b) ++ c = a ++ (b ++ c).
Proof.
  induction a as [|x a IH]; simpl; [|rewrite IH]; reflexivity.
Qed.

Lemma compare_percent (pattern s : string) :
  pattern_compare (String "%" pattern) s = any_suffix (pattern_compare pattern) s.
Proof. reflexivity. Qed.

(** Patterns compose along a split of the string. *)
Lemma compare_app (p1 p2 s1 s2 : string) :
  pattern_compare p1 s1 = true -> pattern_compare p2 s2 = true -> pattern_compare (p1 ++ p2) (s1 ++ s2) = true.
Proof.
  revert s1. induction p1 as [|c p1 IH]; intros s1 H1 H2.
  - destruct s1; [exact H2 | discriminate].
  - simpl in *. destruct (Ascii.eqb c "%").
    + apply any_suffix_true in H1 as (x & y & -> & Hy).
      apply any_suffix_true. exists x, (y ++ s2).
      split; [apply append_assoc | apply IH; auto].
    + destruct s1 as [|d s1]; [discriminate|]. simpl.
      apply andb_true_iff in H1 as [Hc H1].
      rewrite Hc. simpl. apply IH; auto.
Qed.

(** [%] matches every string. *)
Lemma compare_any (s : string) : pattern_compare "%" s = true.
Proof.
  rewrite compare_percent. apply any_suffix_true.
  exists s, "". split; [|reflexivity].
  induction s as [|c s IH]; simpl; [|rewrite <- IH]; reflexivity.
Qed.

(** [_] matches every one-character string. *)
Lemma compare_one (c : ascii) : pattern_compare "_" (String c "") = true.
Proof. reflexivity. Qed.

(** A string matches itself read as a pattern. *)
Lemma compare_self (s : string) : pattern_compare s s = true.
Proof.
  induction s as [|c s IH]; auto.
  destruct (Ascii.eqb_spec c "%") as [-> | Hc].
  - rewrite compare_percent. apply any_suffix_true.
    exists (String "%" ""), s. auto.
  - apply Ascii.eqb_neq in Hc. simpl. rewrite Hc.
    rewrite Ascii.eqb_refl, orb_true_r. exact IH.
Qed.

Lemma any_suffix_lower (f g : string -> bool) :
  (forall s, f s = g (lower s)) ->
  forall s, any_suffix f s = any_suffix g (lower s).
Proof.
  intros H s. induction s as [|c s IH]; simpl; rewrite H; simpl; auto.
  rewrite IH. reflexivity.
Qed.

Lemma compare_literal_prefix (q s : string) :
  no_wildcard q = true ->
  pattern_compare (q ++ "%") s = startswith (lower q) (lower s).
Proof.
  revert s. induction q as [|c q IH]; intros s Hq.
  - simpl ((""%string ++ "%")%string). rewrite compare_any. destruct s; reflexivity.
  - simpl in Hq. apply andb_true_iff in Hq as [Hc Hq].
    apply andb_true_iff in Hc as [Hp Hu].
    apply negb_true_iff in Hp, Hu.
    simpl. rewrite Hp, Hu. simpl.
    destruct s as [|d s]; simpl; auto.
    rewrite IH by exact Hq. reflexivity.
Qed.

(** For a query without wildcards, [LIKE '%query%'] is substring containment
    up to ASCII letter case. *)
Lemma compare_literal (q s : string) :
  no_wildcard q = true ->
  pattern_compare ("%" ++ q ++ "%") s = contains (lower q) (lower s).
Proof.
  intros Hq. simpl. unfold contains.
  apply any_suffix_lower. intros s'. apply compare_literal_prefix, Hq.
Qed.


Lemma c_string_no_nul (s : string) : no_nul s = true -> c_string s = s.
Proof.
  induction s as [|c s IH]; simpl; auto.
  intros H. apply andb_true_iff in H as [Hc Hs].
  apply negb_true_iff in Hc. rewrite Hc, IH by exact Hs. reflexivity.
Qed.

Lemma no_nul_app (a b : string) :
  no_nul (a ++ b) = no_nul a && no_nul b.
Proof.
  induction a as [|c a IH]; simpl; auto. rewrite IH, andb_assoc. reflexivity.
Qed.

Lemma c_string_app (a b : string) :
  no_nul a = true -> c_string (a ++ b) = a ++ c_string b.
Proof.
  induction a as [|c a IH]; simpl; auto.
  intros H. apply andb_true_iff in H as [Hc Ha].
  apply negb_true_iff in Hc. rewrite Hc, IH by exact Ha. reflexivity.
Qed.

(** The pattern [%query%] as a C string, for a query without NUL. *)
Lemma c_string_pattern (query : string) :
  no_nul query = true ->
  c_string ("%" ++ query ++ "%") = "%" ++ query ++ "%".
Proof.
  intros H. apply c_string_no_nul.
  change ("%" ++ query ++ "%") with (String "%" (query ++ "%")).
  simpl. rewrite no_nul_app, H. reflexivity.
Qed.

(** For a query without wildcards and without NUL, [LIKE '%query%'] is
    substring containment, up to ASCII letter case, in the content read as
    a C string. *)
Lemma like_literal (q s : string) :
  no_wildcard q = true -> no_nul q = true ->
  like ("%" ++ q ++ "%") s = contains (lower q) (lower (c_string s)).
Proof.
  intros Hw Hn. unfold like. rewrite c_string_pattern by exact Hn.
  apply compare_literal, Hw.
Qed.

End LikeFacts.

(* ------------------------------------------------------------------ *)
(** ** The memory ledger: [forget] *)

Section ForgetFacts.
Import text sqlite storage python memory ledger notions.

Lemma delete_where_rows (p : MemoryRow -> bool) (rows kept : list MemoryRow)
  (idx : list FtsEntry) :
  fst (fst (delete_where p kept rows idx))
  = (kept ++ filter (fun m => negb (p m)) rows)%list /\
  snd (delete_where p kept rows idx)
  = Z.of_nat (List.length (filter p rows)).
Proof.
  revert kept idx. induction rows as [|old rows IH]; intros kept idx; simpl.
  - rewrite app_nil_r. auto.
  - destruct (p old) eqn:E; simpl.
    + specialize (IH kept (memories_ad (kept ++ rows)%list idx old)).
      destruct (delete_where p kept rows _) as [[mem idx'] n].
      simpl in *. destruct IH as [-> ->]. split; auto. lia.
    + specialize (IH (kept ++ [old])%list idx).
      destruct IH as [-> ->]. rewrite <- app_assoc. auto.
Qed.

Lemma delete_like_rows (st : Store) (pattern : string) :
  memories (fst (delete_like st pattern))
  = filter (fun m => negb (like pattern (m_content m))) (memories st) /\
  snd (delete_like st pattern)
  = Z.of_nat (List.length
                (filter (fun m => like pattern (m_content m)) (memories st))).
Proof.
  unfold delete_like.
  pose proof (delete_where_rows
                (fun m => like pattern (m_content m))
                (memories st) [] (memories_fts st)) as H.
  destruct (delete_where _ [] (memories st) (memories_fts st)) as [[mem idx] n].
  simpl in *. tauto.
Qed.

Lemma delete_like_other_tables (st : Store) (pattern : string) :
  artifacts (fst (delete_like st pattern)) = artifacts st /\
  storage.errors (fst (delete_like st pattern)) = storage.errors st /\
  errors_seq (fst (delete_like st pattern)) = errors_seq st /\
  config (fst (delete_like st pattern)) = config st.
Proof.
  unfold delete_like.
  destruct (delete_where _ [] (memories st) (memories_fts st)) as [[mem idx] n].
  simpl. auto.
Qed.

(** [forget] either raises [OperationalError] or runs the DELETE. *)
Lemma forget_ok (st st' : Store) (query : string) (count : Z) :
  forget st query = Ok (st', count) ->
  (st', count) = delete_like st ("%" ++ query ++ "%").
Proof.
  unfold forget. destruct (memories st); [congruence|].
  destruct (like_too_complex _); [discriminate | congruence].
Qed.

Lemma forget_returns (st : Store) (query : string) :
  memories st = [] \/ like_too_complex ("%" ++ query ++ "%") = false ->
  forget st query = Ok (delete_like st ("%" ++ query ++ "%")).
Proof.
  unfold forget. intros [H | H].
  - rewrite H. reflexivity.
  - rewrite H. destruct (memories st); reflexivity.
Qed.

Lemma forget_raises (st : Store) (query : string) :
  memories st <> [] -> like_too_complex ("%" ++ query ++ "%") = true ->
  forget st query = Raise OperationalError.
Proof.
  unfold forget. intros Hm Hc. rewrite Hc.
  destruct (memories st); [congruence | reflexivity].
Qed.

Lemma step_forget (st : Store) (query : string) :
  step st (Forget query) = st \/
  step st (Forget query) = fst (delete_like st ("%" ++ query ++ "%")).
Proof.
  unfold step. destruct (forget st query) as [[st' n]|e] eqn:E; auto.
  apply forget_ok in E. right. rewrite <- E. reflexivity.
Qed.

Lemma utf8_len_app (a b : string) :
  utf8_len (a ++ b) = (utf8_len a + utf8_len b)%Z.
Proof.
  induction a as [|c a IH]; simpl; [|rewrite IH]; lia.
Qed.

Lemma utf8_len_pattern (query : string) :
  utf8_len ("%" ++ query ++ "%") = (utf8_len query + 2)%Z.
Proof.
  rewrite !utf8_len_app. change (utf8_len "%") with 1%Z. lia.
Qed.

(** C2, as the code has it.  [forget] deletes exactly the memories whose
    content matches the pattern [%query%] of SQLite's LIKE, which reads
    pattern and content up to their first NUL and folds ASCII letter case,
    and returns their number, which is never negative; the other tables stay
    as they are.  This is so whenever the pattern has at most 50000 bytes
    (the query at most 49998) or the table is empty; over a longer pattern and
    a table with a row it raises [sqlite3.OperationalError].  For a query
    without [%], [_] and NUL the deleted memories are exactly those whose
    content, up to its first NUL, contains the query as a substring up to
    ASCII letter case.  The bytes are those of the UTF-8 encoding: on a
    table with a row a query of 24999 letters e-acute passes and one of 25000
    raises. *)
Theorem forget_deletes_like_matches :
  forall (st : Store) (query : string),
    let pattern := "%" ++ query ++ "%" in
    let deleted m := like pattern (m_content m) in
    ((utf8_len query <= 49998)%Z \/ memories st = [] ->
     exists st' count,
       forget st query = Ok (st', count) /\
       memories st'
       = filter (fun m => negb (deleted m)) (memories st) /\
       count = Z.of_nat (List.length (filter deleted (memories st))) /\
       (0 <= count)%Z /\
       artifacts st' = artifacts st /\
       storage.errors st' = storage.errors st) /\
    ((49998 < utf8_len query)%Z -> memories st <> [] ->
     forget st query = Raise OperationalError) /\
    (no_wildcard query = true -> no_nul query = true ->
     forall m, deleted m
               = contains (lower query) (lower (c_string (m_content m)))) /\
    (let e_acute := ascii_of_N 233 in
     let letters n := string_of_list_ascii (repeat e_acute (Z.to_nat n)) in
     forget mysql_ledger (letters 24999%Z) = Ok (mysql_ledger, 0%Z) /\
     forget mysql_ledger (letters 25000%Z) = Raise OperationalError).
Proof.
  intros st query pattern deleted.
  assert (Hlen : like_too_complex pattern
                 = (49998 <? utf8_len query)%Z).
  { unfold like_too_complex, MAX_LIKE_PATTERN_LENGTH, pattern.
    rewrite utf8_len_pattern.
    destruct (Z.ltb_spec 50000 (utf8_len query + 2));
      destruct (Z.ltb_spec 49998 (utf8_len query)); auto; lia. }
  split; [|split; [|split]].
  - intros Hok.
    assert (Hf : forget st query = Ok (delete_like st pattern)).
    { apply forget_returns.
      destruct Hok as [Hq | Hm]; [right | left; exact Hm].
      fold pattern. rewrite Hlen. apply Z.ltb_ge. exact Hq. }
    destruct (delete_like_rows st pattern) as [H1 H2].
    destruct (delete_like_other_tables st pattern) as (H3 & H4 & _).
    destruct (delete_like st pattern) as [st' count].
    exists st', count. simpl in *.
    repeat split; auto. rewrite H2. lia.
  - intros Hq Hm. apply forget_raises; auto.
    fold pattern. rewrite Hlen. apply Z.ltb_lt. exact Hq.
  - intros Hw Hn m. apply like_literal; assumption.
  - split; vm_compute; reflexivity.
Qed.

Lemma forget_deletes_like_matches_witness :
  ((utf8_len "mysql" <= 49998)%Z \/ memories mysql_ledger = []) /\
  no_wildcard "mysql" = true /\ no_nul "mysql" = true /\
  (exists st',
      forget mysql_ledger "mysql" = Ok (st', 1%Z) /\ memories st' = []) /\
  like ("%" ++ "mysql" ++ "%") "Use MySQL"
  = contains (lower "mysql") (lower (c_string "Use MySQL")).
Proof.
  assert (Hq : (utf8_len "mysql" <= 49998)%Z \/ memories mysql_ledger = [])
    by (left; vm_compute; discriminate).
  split; [exact Hq|]. split; [reflexivity|]. split; [reflexivity|].
  destruct (forget_deletes_like_matches mysql_ledger "mysql")
    as (Hok & _ & Hlit & _).
  split.
  - destruct (Hok Hq) as (st' & count & Hf & Hm & Hc & _).
    exists st'. split; [|rewrite Hm; reflexivity].
    rewrite Hf, Hc. reflexivity.
  - exact (Hlit eq_refl eq_refl
             {| m_rowid := 1; m_id := "id-1"; m_content := "Use MySQL";
                m_tags := "[]"; m_created_at := 1700000000;
                m_importance := "medium" |}).
Defined.

(** C2, as stated, fails: "Use MySQL" does not contain "mysql" as a
    case-sensitive substring, and [forget "mysql"] deletes it. *)
Lemma forget_is_not_case_sensitive :
  map m_content (memories mysql_ledger) = ["Use MySQL"] /\
  contains "mysql" "Use MySQL" = false /\
  exists st',
    forget mysql_ledger "mysql" = Ok (st', 1%Z) /\ memories st' = [].
Proof.
  split; [reflexivity|]. split; [reflexivity|].
  eexists. split; vm_compute; reflexivity.
Qed.

Lemma like_pieces (a b x y z : string) :
  no_nul (x ++ a ++ y ++ b) = true ->
  like ("%" ++ a ++ "%" ++ b ++ "%") (x ++ a ++ y ++ b ++ z) = true.
Proof.
  intros Hn.
  assert (Hn' := Hn). rewrite !no_nul_app in Hn'.
  apply andb_true_iff in Hn' as [Hx Hn'].
  apply andb_true_iff in Hn' as [Ha Hn'].
  apply andb_true_iff in Hn' as [Hy Hb].
  unfold like.
  replace (c_string ("%" ++ a ++ "%" ++ b ++ "%"))
    with ("%" ++ a ++ "%" ++ b ++ "%").
  - replace (x ++ a ++ y ++ b ++ z) with ((x ++ a ++ y ++ b) ++ z)
      by (rewrite !append_assoc; reflexivity).
    rewrite c_string_app by exact Hn. rewrite !append_assoc.
    apply (compare_app "%" _ x _ (compare_any x)).
    apply (compare_app a _ a _ (compare_self a)).
    apply (compare_app "%" _ y _ (compare_any y)).
    apply (compare_app b _ b _ (compare_self b)).
    apply compare_any.
  - symmetry. apply c_string_no_nul.
    change ("%" ++ a ++ "%" ++ b ++ "%")
      with (String "%" (a ++ String "%" (b ++ "%"))).
    simpl. rewrite no_nul_app, Ha. simpl. rewrite no_nul_app, Hb. reflexivity.
Qed.

Lemma like_pieces_one (a b x z : string) (c : ascii) :
  no_nul (x ++ a ++ String c b) = true ->
  like ("%" ++ a ++ "_" ++ b ++ "%") (x ++ a ++ String c b ++ z) = true.
Proof.
  intros Hn.
  assert (Hn' := Hn). rewrite !no_nul_app in Hn'.
  apply andb_true_iff in Hn' as [Hx Hn'].
  apply andb_true_iff in Hn' as [Ha Hcb].
  simpl in Hcb. apply andb_true_iff in Hcb as [Hc Hb].
  unfold like.
  replace (c_string ("%" ++ a ++ "_" ++ b ++ "%"))
    with ("%" ++ a ++ "_" ++ b ++ "%").
  - replace (x ++ a ++ String c b ++ z) with ((x ++ a ++ String c b) ++ z)
      by (rewrite !append_assoc; reflexivity).
    rewrite c_string_app by exact Hn. rewrite !append_assoc.
    apply (compare_app "%" _ x _ (compare_any x)).
    apply (compare_app a _ a _ (compare_self a)).
    apply (compare_app "_" _ (String c "") _ (compare_one c)).
    apply (compare_app b _ b _ (compare_self b)).
    apply compare_any.
  - symmetry. apply c_string_no_nul.
    change ("%" ++ a ++ "_" ++ b ++ "%")
      with (String "%" (a ++ String "_" (b ++ "%"))).
    simpl. rewrite no_nul_app, Ha. simpl. rewrite no_nul_app, Hb. reflexivity.
Qed.

(** C10, as the code has it.  A [%] in the query of [forget] stands for any
    run of characters and a [_] for any one character: whenever [forget]
    returns, a memory whose content has the two pieces around the wildcard in
    that order is deleted, whatever lies between them (any text for [%], any
    one character for [_]), provided the content has no NUL up to the end of
    the second piece.  So a memory can be deleted although its content does
    not contain the query: "My%QL" deletes "Use MySQL". *)
Theorem forget_query_wildcards :
  (forall (st st' : Store) (count : Z) (a b x y z : string) (m : MemoryRow),
      In m (memories st) -> m_content m = x ++ a ++ y ++ b ++ z ->
      no_nul (x ++ a ++ y ++ b) = true ->
      forget st (a ++ "%" ++ b) = Ok (st', count) ->
      ~ In m (memories st')) /\
  (forall (st st' : Store) (count : Z) (a b x z : string) (c : ascii)
          (m : MemoryRow),
      In m (memories st) -> m_content m = x ++ a ++ String c b ++ z ->
      no_nul (x ++ a ++ String c b) = true ->
      forget st (a ++ "_" ++ b) = Ok (st', count) ->
      ~ In m (memories st')) /\
  (exists m st',
      In m (memories mysql_ledger) /\
      contains "My%QL" (m_content m) = false /\
      forget mysql_ledger "My%QL" = Ok (st', 1%Z) /\
      ~ In m (memories st')).
Proof.
  assert (G : forall st st' count q m,
             like ("%" ++ q ++ "%") (m_content m) = true ->
             forget st q = Ok (st', count) ->
             ~ In m (memories st')).
  { intros st st' count q m Hl Hf Hin.
    apply forget_ok in Hf.
    assert (Hs : st' = fst (delete_like st ("%" ++ q ++ "%")))
      by (rewrite <- Hf; reflexivity).
    rewrite Hs, (proj1 (delete_like_rows st _)) in Hin.
    apply filter_In in Hin as [_ Hn]. rewrite Hl in Hn. discriminate. }
  split; [|split].
  - intros st st' count a b x y z m _ E Hn Hf.
    apply (G st st' count (a ++ "%" ++ b) m); auto.
    rewrite E, !append_assoc. apply like_pieces, Hn.
  - intros st st' count a b x z c m _ E Hn Hf.
    apply (G st st' count (a ++ "_" ++ b) m); auto.
    rewrite E, !append_assoc. apply like_pieces_one, Hn.
  - do 2 eexists. split; [left; reflexivity|].
    split; [reflexivity|]. split; [vm_compute; reflexivity|].
    intros [].
Qed.

Lemma forget_query_wildcards_witness :
  exists st',
    forget mysql_ledger ("Use" ++ "%" ++ "SQL") = Ok (st', 1%Z) /\
    ~ In {| m_rowid := 1; m_id := "id-1"; m_content := "Use MySQL";
            m_tags := "[]"; m_created_at := 1700000000;
            m_importance := "medium" |}
         (memories st').
Proof.
  eexists. split; [vm_compute; reflexivity|].
  apply (proj1 forget_query_wildcards mysql_ledger _ 1%Z
           "Use" "SQL" "" " My" "").
  - left. reflexivity.
  - reflexivity.
  - reflexivity.
  - vm_compute. reflexivity.
Defined.

(** C10, as stated, fails: "Use My", a NUL and "SQL" has the pieces "My"
    and "QL" in that order, and [forget "My%QL"] returns 0 and leaves the
    memory, because LIKE reads the content up to the NUL. *)
Lemma forget_wildcard_stops_at_nul :
  exists m,
    memories nul_ledger = [m] /\
    m_content m = "Use " ++ "My" ++ (nul ++ "S") ++ "QL" ++ "" /\
    forget nul_ledger ("My" ++ "%" ++ "QL") = Ok (nul_ledger, 0%Z).
Proof.
  eexists. split; [reflexivity|]. split; vm_compute; reflexivity.
Qed.

End ForgetFacts.

(* ------------------------------------------------------------------ *)
(** ** Validation: the tool layer and the ledger *)

Section ValidationFacts.
Import text sqlite storage python memory ledger notions notions2.

Lemma rstrip_empty (s : string) : rstrip s = "" <-> all_space s = true.
Proof.
  induction s as [|c s IH]; simpl; [tauto|].
  destruct (rstrip s) eqn:E.
  - rewrite (proj1 IH eq_refl), andb_true_r.
    destruct (is_space c); split; auto; discriminate.
  - split; [discriminate|]. intros H.
    apply andb_true_iff in H as [_ H]. apply IH in H. discriminate.
Qed.

Lemma all_space_lstrip (s : string) : all_space (lstrip s) = all_space s.
Proof.
  induction s as [|c s IH]; simpl; auto.
  destruct (is_space c) eqn:E; simpl; auto. rewrite E. reflexivity.
Qed.

(** [content.strip()] is empty exactly when [content] is white space only. *)
Lemma strip_empty (s : string) : strip s = "" <-> all_space s = true.
Proof.
  unfold strip. rewrite rstrip_empty, all_space_lstrip. tauto.
Qed.

(** C4, as the code has it.  Content that is empty once white space is
    trimmed, that is content made of white space only, is turned down by the
    tool in front of the ledger: [validate_input] raises [ValueError], the
    tool answers "content cannot be empty", and the store is as before.
    [SimpleMemory.remember] itself validates nothing: under an id not yet in
    the table it stores whatever content it is given as one new row. *)
Theorem blank_content_rejected_by_tool_only :
  forall (R : simplecontext.Regex) (st : Store) (memory_id : string) (now : Q)
         (content : string) (tags : option (list string)) (importance : string),
    (strip content = "" ->
     all_space content = true /\
     simplecontext.validate_input content "content"
       simplecontext.MAX_CONTENT_LENGTH
     = Raise (ValueError "content cannot be empty") /\
     simplecontext.remember st memory_id now content tags
     = (st, simplecontext.ErrorReply "content cannot be empty")) /\
    (existsb (fun m => String.eqb (m_id m) memory_id) (memories st) = false ->
     exists st',
       memory.remember st memory_id now content tags importance
       = Ok (st', memory_id) /\
       map m_content (memories st')
       = (map m_content (memories st) ++ [content])%list /\
       List.length (memories st') = S (List.length (memories st))).
Proof.
  intros R st memory_id now content tags importance. split.
  - intros Hs. split; [apply strip_empty, Hs|].
    assert (Hv : simplecontext.validate_input content "content"
                   simplecontext.MAX_CONTENT_LENGTH
                 = Raise (ValueError "content cannot be empty")).
    { unfold simplecontext.validate_input. rewrite Hs. reflexivity. }
    split; [exact Hv|].
    unfold simplecontext.remember, simplecontext.remember_try.
    rewrite Hv. reflexivity.
  - intros Hfresh. unfold memory.remember. rewrite Hfresh.
    eexists. split; [reflexivity|]. simpl.
    rewrite map_app, length_app. simpl. split; auto. lia.
Qed.

Lemma blank_content_rejected_by_tool_only_witness :
  strip "   " = "" /\
  @simplecontext.remember no_match init_schema "id-1" 1700000000 "   " None
  = (init_schema, simplecontext.ErrorReply "content cannot be empty").
Proof.
  split; [reflexivity|].
  apply (proj1 (blank_content_rejected_by_tool_only no_match init_schema "id-1"
                  1700000000 "   " None "medium")).
  reflexivity.
Defined.

(** C4, as stated, fails: [SimpleMemory.remember] called with three spaces
    raises nothing and stores a row. *)
Lemma remember_stores_blank_content :
  strip "   " = "" /\
  exists st',
    memory.remember init_schema "id-1" 1700000000 "   " None "medium"
    = Ok (st', "id-1") /\
    map m_content (memories st') = ["   "].
Proof.
  split; [reflexivity|]. eexists. split; reflexivity.
Qed.

Context {E : Fts5}.

Lemma validate_input_cases (content field_name : string) (max_length : Z) :
  simplecontext.validate_input content field_name max_length = Ok tt \/
  exists msg, simplecontext.validate_input content field_name max_length
              = Raise (ValueError msg).
Proof.
  unfold simplecontext.validate_input.
  destruct (String.eqb (strip content) ""); [right; eauto|].
  destruct (max_length <? _)%Z; [right; eauto | left; reflexivity].
Qed.

End ValidationFacts.

(* ------------------------------------------------------------------ *)
(** ** The memory ledger: the ranking of [recall] *)

Section RecallFacts.
Import text sqlite storage python memory ledger notions.

Lemma denominator_pos (ms : Z) :
  (- (10 * MS_PER_DAY) < ms)%Z -> (0 < denominator ms)%Q.
Proof.
  cbv beta iota delta [denominator MS_PER_DAY Qlt Qplus Qmult Qdiv Qinv
                         inject_Z Qnum Qden].
  lia.
Qed.

Lemma denominator_mono (x y : Z) :
  (x < y)%Z -> (denominator x < denominator y)%Q.
Proof.
  cbv beta iota delta [denominator MS_PER_DAY Qlt Qplus Qmult Qdiv Qinv
                         inject_Z Qnum Qden].
  lia.
Qed.

Lemma recency_score_denominator (now t : Q) (c : Z) :
  julianday_unixepoch_ms t = Some c ->
  (0 < denominator (julianday_now_ms now - c))%Q ->
  recency_score now t = Some (1 / denominator (julianday_now_ms now - c))%Q.
Proof.
  intros Hc Hd. unfold recency_score, age_days. rewrite Hc.
  fold (denominator (julianday_now_ms now - c)).
  destruct (Qeq_bool _ 0) eqn:E; auto.
  apply Qeq_bool_iff in E. rewrite E in Hd. discriminate.
Qed.

(** Of two creation times that round to different milliseconds, the later
    has the strictly higher score, provided it is less than ten days ahead
    of the clock. *)
Lemma recency_score_later (now te tl : Q) (ce cl : Z) :
  julianday_unixepoch_ms te = Some ce ->
  julianday_unixepoch_ms tl = Some cl ->
  (ce < cl)%Z ->
  (cl - julianday_now_ms now < 10 * MS_PER_DAY)%Z ->
  key_ge (recency_score now te) (recency_score now tl) = false.
Proof.
  intros He Hl Hlt Hnear.
  set (n := julianday_now_ms now).
  assert (Dl : (0 < denominator (n - cl))%Q) by (apply denominator_pos; lia).
  assert (Dm : (denominator (n - cl) < denominator (n - ce))%Q)
    by (apply denominator_mono; lia).
  assert (De : (0 < denominator (n - ce))%Q) by (eapply Qlt_trans; eauto).
  rewrite (recency_score_denominator now te ce He De).
  rewrite (recency_score_denominator now tl cl Hl Dl).
  simpl. destruct (Qle_bool _ _) eqn:E; auto.
  apply Qle_bool_iff in E. exfalso.
  apply (Qlt_not_le _ _ (proj1 (Qinv_lt_contravar _ _ Dl De) Dm)).
  unfold Qdiv in E. rewrite !Qmult_1_l in E. exact E.
Qed.

Lemma firstn_sorted {A : Type} (R : A -> A -> Prop) (n : nat) (l : list A) :
  StronglySorted R l -> StronglySorted R (firstn n l).
Proof.
  intros H. revert n. induction H as [|x l Hs IH Hall]; intros n.
  - rewrite firstn_nil. constructor.
  - destruct n; simpl; constructor; auto.
    rewrite Forall_forall in *. intros y Hy. apply Hall.
    rewrite <- (firstn_skipn n l). apply in_or_app. auto.
Qed.

Context {E : Fts5}.

Lemma recall_accepted (st : Store) (now : Q) (query : string)
  (q : fts5_query) (limit : Z) :
  fts5_parse query = Some q -> limit <> 0%Z ->
  memory.recall st now query limit
  = Ok (sqlite.limit limit
          (order_by_desc r_recency_score
             (map (select_recall now) (matching st q)))).
Proof.
  intros Hq Hl. unfold memory.recall. rewrite Hq.
  destruct (Z.eqb_spec limit 0); [contradiction | reflexivity].
Qed.

(** C3, as the code has it.  For a query the engine accepts and a positive
    limit, [recall] returns at most [limit] rows, each a matching memory
    with its score [1 / (1 + age_days * 0.1)], highest score first.  The rows
    are the first [limit] of a ranking of all matching memories in which
    memories of equal score stand in table order (the ORDER BY names the
    score only).  The age is taken between instants rounded to the
    millisecond, so of two matching memories whose creation times round to
    different milliseconds the later one, if it is less than ten days ahead
    of the clock, has the strictly higher score: whenever the earlier one is
    returned, the later one is returned before it. *)
Theorem recall_ranks_by_recency :
  forall (st : Store) (now : Q) (query : string) (q : fts5_query) (limit : Z),
    fts5_parse query = Some q -> (0 < limit)%Z ->
    exists rows ranking,
      memory.recall st now query limit = Ok rows /\
      (Z.of_nat (List.length rows) <= limit)%Z /\
      (forall r, In r rows ->
         In (r_row r) (memories st) /\
         fts_match q (memories_fts st) (m_rowid (r_row r)) = true /\
         r_age_days r = age_days now (m_created_at (r_row r)) /\
         r_recency_score r = recency_score now (m_created_at (r_row r))) /\
      StronglySorted (ranks_ge r_recency_score) rows /\
      rows = firstn (Z.to_nat limit) ranking /\
      Permutation ranking (map (select_recall now) (matching st q)) /\
      (forall k, filter (same_key r_recency_score k) ranking
                 = filter (same_key r_recency_score k)
                          (map (select_recall now) (matching st q))) /\
      (forall (e l : MemoryRow) (ce cl : Z) (i : nat),
         In l (matching st q) ->
         julianday_unixepoch_ms (m_created_at e) = Some ce ->
         julianday_unixepoch_ms (m_created_at l) = Some cl ->
         (ce < cl)%Z ->
         (cl - julianday_now_ms now < 10 * MS_PER_DAY)%Z ->
         nth_error rows i = Some (select_recall now e) ->
         exists j, (j < i)%nat /\
                   nth_error rows j = Some (select_recall now l)).
Proof.
  intros st now query q limit Hq Hlim.
  set (ranking := order_by_desc r_recency_score
                    (map (select_recall now) (matching st q))).
  assert (Hrows : sqlite.limit limit ranking
                  = firstn (Z.to_nat limit) ranking).
  { unfold sqlite.limit. destruct (Z.ltb_spec limit 0); [lia | reflexivity]. }
  assert (Hsorted : StronglySorted (ranks_ge r_recency_score) ranking)
    by apply order_by_desc_sorted.
  exists (firstn (Z.to_nat limit) ranking), ranking.
  split.
  { rewrite (recall_accepted st now query q limit Hq) by lia.
    fold ranking. rewrite Hrows. reflexivity. }
  split; [rewrite length_firstn; lia|].
  split.
  { intros r Hr.
    assert (Hin : In r ranking).
    { rewrite <- (firstn_skipn (Z.to_nat limit) ranking).
      apply in_or_app. auto. }
    apply In_order_by_desc, in_map_iff in Hin as (m & <- & Hm).
    apply filter_In in Hm as [Hm Hf]. simpl. auto. }
  split; [apply firstn_sorted, Hsorted|].
  split; [reflexivity|].
  split; [apply order_by_desc_perm|].
  split; [intros k; apply order_by_desc_stable|].
  intros e l ce cl i Hl He Hcl Hlt Hnear Hi.
  rewrite nth_error_firstn in Hi.
  destruct (Nat.ltb_spec i (Z.to_nat limit)) as [Hin | Hin]; [|discriminate].
  assert (Hj : In (select_recall now l) ranking).
  { apply In_order_by_desc, in_map, Hl. }
  apply In_nth_error in Hj as (j & Hj).
  pose proof (recency_score_later now _ _ ce cl He Hcl Hlt Hnear) as Hstrict.
  destruct (Nat.lt_trichotomy j i) as [Hji | [-> | Hij]].
  - exists j. split; auto. rewrite nth_error_firstn.
    destruct (Nat.ltb_spec j (Z.to_nat limit)); [auto | lia].
  - assert (Hs : select_recall now e = select_recall now l) by congruence.
    apply (f_equal r_recency_score) in Hs. simpl in Hs.
    rewrite Hs, key_ge_refl in Hstrict. discriminate.
  - pose proof (sorted_nth_ranks r_recency_score ranking i j _ _
                  Hsorted Hij Hi Hj) as Hr.
    unfold ranks_ge in Hr. simpl in Hr. congruence.
Qed.

End RecallFacts.

(* ------------------------------------------------------------------ *)
(** ** The full-text index against the table *)

Section IndexFacts.
Import text sqlite storage python memory ledger notions.

Lemma max_rowid_ge (l : list Z) (x : Z) : In x l -> (x <= max_rowid l)%Z.
Proof.
  induction l as [|y l IH]; simpl; [tauto|].
  intros [-> | H]; [|apply IH in H]; lia.
Qed.


(** A WHERE clause keeps the rowids of a table distinct. *)
Lemma filter_rowids (keep : MemoryRow -> bool) (rows : list MemoryRow)
  (H : NoDup (map m_rowid rows)) :
  NoDup (map m_rowid (filter keep rows)).
Proof.
  induction rows as [|m rows IH]; simpl in *; [constructor|].
  apply NoDup_cons_iff in H as [Hm Hrows].
  destruct (keep m); simpl; [|exact (IH Hrows)].
  apply NoDup_cons; [|exact (IH Hrows)].
  intros Hin. apply Hm.
  apply in_map_iff in Hin as (m' & Eq & Hin).
  apply filter_In in Hin as [Hin _].
  rewrite <- Eq. apply in_map, Hin.
Qed.

Lemma step_rowids_distinct (st : Store) (o : op) :
  rowids_distinct st -> rowids_distinct (step st o).
Proof.
  unfold rowids_distinct. intros H. destruct o as [id now c tags imp | query].
  - simpl. unfold memory.remember.
    destruct (existsb _ (memories st)); simpl; auto.
    rewrite map_app. simpl.
    apply NoDup_rev in H. rewrite <- (rev_involutive (_ ++ _)%list).
    apply NoDup_rev. rewrite rev_app_distr. simpl.
    constructor; auto.
    rewrite <- in_rev. intros Hin. apply max_rowid_ge in Hin.
    unfold next_rowid in Hin. lia.
  - destruct (step_forget st query) as [Hs | Hs]; rewrite Hs; [exact H|].
    rewrite (proj1 (delete_like_rows st _)). apply filter_rowids, H.
Qed.

Lemma run_rowids_distinct (ops : list op) : rowids_distinct (run ops).
Proof.
  unfold run.
  assert (G : forall st, rowids_distinct st ->
                         rowids_distinct (fold_left step ops st)).
  { induction ops as [|o ops IH]; intros st Hst; simpl; auto.
    apply IH, step_rowids_distinct, Hst. }
  apply G. constructor.
Qed.





End IndexFacts.

(* ------------------------------------------------------------------ *)
(** ** [recall]: the limit, and queries that match nothing *)

Section RecallLimitFacts.
Import text sqlite storage python memory ledger notions notions2.

Context {E : Fts5}.

Lemma own_entries (rows : list MemoryRow) (m : MemoryRow) :
  NoDup (map m_rowid rows) -> In m rows ->
  indexed_under (map index_entry rows) (m_rowid m)
  = [(m_content m, m_tags m)].
Proof.
  unfold indexed_under.
  induction rows as [|r rows IH]; intros Hd Hin; [destruct Hin|].
  simpl in Hd. apply NoDup_cons_iff in Hd as [Hr Hd].
  simpl. destruct Hin as [-> | Hin].
  - rewrite Z.eqb_refl. simpl. f_equal.
    replace (filter _ (map index_entry rows)) with (@nil FtsEntry);
      [reflexivity|].
    symmetry. apply filter_none. intros e He.
    apply in_map_iff in He as (r' & <- & Hr'). simpl.
    apply Z.eqb_neq. intros Eq. apply Hr. rewrite <- Eq. apply in_map, Hr'.
  - destruct (Z.eqb_spec (m_rowid r) (m_rowid m)) as [Eq | Ne].
    + exfalso. apply Hr. rewrite Eq. apply in_map, Hin.
    + apply IH; assumption.
Qed.

(** After [remember] operations alone the index is in step with the
    table. *)
Lemma remembers_keep_in_step (ops : list op) :
  only_remembers ops = true -> index_in_step (run ops).
Proof.
  intros Hops.
  assert (G : forall st,
             memories_fts st = map index_entry (memories st) ->
             memories_fts (fold_left step ops st)
             = map index_entry (memories (fold_left step ops st))).
  { revert Hops. induction ops as [|o ops IH]; intros Hops st Hst; auto.
    simpl in Hops. destruct o as [id t c tags imp | query]; [|discriminate].
    simpl. apply IH; [exact Hops|].
    unfold memory.remember.
    destruct (existsb _ (memories st)); simpl; [exact Hst|].
    unfold memories_ai. rewrite map_app, Hst. reflexivity. }
  intros m Hm. unfold run in *. rewrite (G init_schema eq_refl).
  apply own_entries; [|exact Hm].
  apply (run_rowids_distinct ops).
Qed.

(** C5, as the code has it.  A limit of 0 or less is turned down by the
    tool in front of the ledger, with a [ValueError] ("limit must be between
    1 and 100" when the query itself is valid).  [SimpleMemory.recall] raises
    nothing for such a limit as long as the statement runs: under the limit
    0 it returns no row whatever the query, which is then not parsed, and
    under a negative limit it returns every matching row of a query the
    full-text engine accepts.  A query the engine rejects raises
    [sqlite3.OperationalError] under every limit but 0.  A query the engine
    accepts and that the content and tags of no stored memory satisfy gives
    the empty list, from the ledger under every limit and from the tool
    under every limit it lets through, whenever the index is in step with
    the table, as it is after [remember] operations alone. *)
Theorem recall_limit_rejected_by_tool_only :
  forall (st : Store) (now : Q) (query : string) (limit : Z),
    ((limit <= 0)%Z ->
     (exists msg, simplecontext.recall st now query limit
                  = simplecontext.ErrorReply msg) /\
     (simplecontext.validate_input query "query"
        simplecontext.MAX_QUERY_LENGTH = Ok tt ->
      simplecontext.recall st now query limit
      = simplecontext.ErrorReply "limit must be between 1 and 100")) /\
    (limit = 0%Z -> memory.recall st now query limit = Ok []) /\
    (forall q, fts5_parse query = Some q ->
       ((limit < 0)%Z ->
        memory.recall st now query limit
        = Ok (order_by_desc r_recency_score
                (map (select_recall now) (matching st q)))) /\
       (index_in_step st ->
        (forall m, In m (memories st) ->
                   fts5_eval q [(m_content m, m_tags m)] = false) ->
        memory.recall st now query limit = Ok [] /\
        (simplecontext.validate_input query "query"
           simplecontext.MAX_QUERY_LENGTH = Ok tt ->
         (1 <= limit <= 100)%Z ->
         simplecontext.recall st now query limit = simplecontext.Answer []))) /\
    (fts5_parse query = None -> limit <> 0%Z ->
     memory.recall st now query limit = Raise OperationalError) /\
    (forall ops, only_remembers ops = true -> index_in_step (run ops)).
Proof.
  intros st now query limit. split; [|split; [|split; [|split]]].
  - intros Hl.
    assert (Hc : ((limit <? 1) || (100 <? limit))%Z = true).
    { apply orb_true_iff. left. apply Z.ltb_lt. lia. }
    assert (Hok : simplecontext.validate_input query "query"
                    simplecontext.MAX_QUERY_LENGTH = Ok tt ->
                  simplecontext.recall st now query limit
                  = simplecontext.ErrorReply "limit must be between 1 and 100").
    { intros Hv. unfold simplecontext.recall, simplecontext.recall_try.
      rewrite Hv. simpl. rewrite Hc. reflexivity. }
    split; [|exact Hok].
    destruct (validate_input_cases query "query" simplecontext.MAX_QUERY_LENGTH)
      as [Hv | (msg & Hv)].
    + eauto.
    + exists msg. unfold simplecontext.recall, simplecontext.recall_try.
      rewrite Hv. reflexivity.
  - intros ->. reflexivity.
  - intros q Hq. split.
    + intros Hl. unfold memory.recall, sqlite.limit. rewrite Hq.
      destruct (Z.eqb_spec limit 0); [lia|].
      apply Z.ltb_lt in Hl. rewrite Hl. reflexivity.
    + intros Hstep Hnone.
      assert (Hm : matching st q = []).
      { unfold matching. apply filter_none. intros m Hin.
        unfold fts_match. rewrite (Hstep m Hin). apply Hnone, Hin. }
      assert (Hr : memory.recall st now query limit = Ok []).
      { unfold memory.recall. destruct (limit =? 0)%Z; [reflexivity|].
        rewrite Hq, Hm. simpl. unfold sqlite.limit.
        destruct (limit <? 0)%Z; [|rewrite firstn_nil]; reflexivity. }
      split; [exact Hr|].
      intros Hv Hl. unfold simplecontext.recall, simplecontext.recall_try.
      rewrite Hv.
      assert (Hc : ((limit <? 1) || (100 <? limit))%Z = false).
      { apply orb_false_iff. split; apply Z.ltb_ge; lia. }
      unfold bind. rewrite Hc, Hr. reflexivity.
  - intros Hq Hl. unfold memory.recall. rewrite Hq.
    destruct (Z.eqb_spec limit 0); [contradiction | reflexivity].
  - apply remembers_keep_in_step.
Qed.

End RecallLimitFacts.

(* ------------------------------------------------------------------ *)
(** ** The properties at work on the example stores *)

Section Examples.
Import text sqlite storage python memory ledger notions.

Lemma resolve_error_marks_resolved_witness :
  (exists e, In e (storage.errors npm_journal) /\ e_id e = 1%Z) /\
  snd (errors.resolve_error npm_journal 1 "") = true /\
  errors.get_recent_errors (fst (errors.resolve_error npm_journal 1 "")) 5 true
  = [].
Proof.
  assert (H : exists e, In e (storage.errors npm_journal) /\ e_id e = 1%Z).
  { eexists. split; [left; reflexivity | reflexivity]. }
  split; [exact H|].
  destruct (proj2 (resolve_error_marks_resolved npm_journal 1 "") H)
    as (Hfound & _ & _ & _ & Hrecent).
  split; [exact Hfound|].
  vm_compute. reflexivity.
Defined.

(** C3, as stated, fails: the two facts of [same_ms] are created half a
    millisecond apart, SQLite dates both at the same millisecond, so they
    have the same score, and [recall] returns the one created first in front
    of the one created later. *)
Lemma recall_ties_keep_table_order :
  exists first second,
    @memory.recall one_word same_ms 1700000001 "fact" 5 = Ok [first; second] /\
    m_content (r_row first) = "Old fact" /\
    m_content (r_row second) = "Recent fact" /\
    julianday_unixepoch_ms (m_created_at (r_row first))
    = Some 212566760000001%Z /\
    julianday_unixepoch_ms (m_created_at (r_row second))
    = Some 212566760000001%Z /\
    r_recency_score first = r_recency_score second /\
    (m_created_at (r_row first) < m_created_at (r_row second))%Q.
Proof.
  do 2 eexists. split; [vm_compute; reflexivity|].
  repeat split; vm_compute; reflexivity.
Qed.

Lemma recall_ranks_by_recency_witness :
  @fts5_parse one_word "fact" = Some "fact" /\ (0 < 5)%Z /\
  exists rows,
    @memory.recall one_word apart 1700000002 "fact" 5 = Ok rows /\
    nth_error rows 0 = Some (select_recall 1700000002 (recent_fact 1700000001)).
Proof.
  split; [reflexivity|]. split; [lia|].
  destruct (@recall_ranks_by_recency one_word apart 1700000002 "fact" "fact" 5
              eq_refl eq_refl)
    as (rows & ranking & Hrec & _ & _ & _ & _ & _ & _ & Hlater).
  exists rows. split; [exact Hrec|].
  destruct (Hlater (old_fact 1700000000) (recent_fact 1700000001)
                   212566760000000%Z 212566760001000%Z 1%nat)
    as (j & Hj & Hnth).
  - vm_compute. right. left. reflexivity.
  - vm_compute. reflexivity.
  - vm_compute. reflexivity.
  - lia.
  - vm_compute. reflexivity.
  - assert (Hv : @memory.recall one_word apart 1700000002 "fact" 5
                 = Ok [select_recall 1700000002 (recent_fact 1700000001);
                       select_recall 1700000002 (old_fact 1700000000)])
      by (vm_compute; reflexivity).
    rewrite Hv in Hrec. injection Hrec as <-. reflexivity.
  - destruct j; [exact Hnth | lia].
Defined.

(** C5, as stated, fails: [SimpleMemory.recall] with the limits 0 and -1
    raises nothing; it returns no row and every matching row. *)
Lemma recall_takes_nonpositive_limit :
  @memory.recall one_word apart 1700000002 "fact" 0 = Ok [] /\
  @memory.recall one_word apart 1700000002 "fact" (-1)
  = Ok [select_recall 1700000002 (recent_fact 1700000001);
        select_recall 1700000002 (old_fact 1700000000)].
Proof. split; vm_compute; reflexivity. Qed.

Lemma recall_limit_rejected_by_tool_only_witness :
  (0 <= 0)%Z /\
  simplecontext.validate_input "fact" "query" simplecontext.MAX_QUERY_LENGTH
  = Ok tt /\
  @simplecontext.recall one_word apart 1700000002 "fact" 0
  = simplecontext.ErrorReply "limit must be between 1 and 100".
Proof.
  split; [lia|]. split; [reflexivity|].
  apply (proj1 (@recall_limit_rejected_by_tool_only one_word apart 1700000002
                  "fact" 0)).
  - lia.
  - reflexivity.
Defined.

End Examples.

(* ================================================================== *)
(** * Further properties of the code *)
(* ================================================================== *)

(* ------------------------------------------------------------------ *)
(** ** The mode classifier and the budgets *)

Section MoreModes.
Import text modes.

Lemma lower_app (a b : string) : lower (a ++ b) = lower a ++ lower b.
Proof.
  induction a as [|c a IH]; simpl; [|rewrite IH]; reflexivity.
Qed.

(** X1.  Text around a message never turns a debugging message into a coding
    one: if [detect_mode] answers "debugging" for a message, it does so for
    every message that contains it. *)
Theorem detect_mode_survives_context :
  forall message before after,
    detect_mode message = "debugging" ->
    detect_mode (before ++ message ++ after) = "debugging".
Proof.
  intros m x y H. unfold detect_mode in *.
  apply scan_keywords_debugging in H as (k & Hin & Hk).
  apply scan_keywords_debugging. exists k. split; auto.
  apply contains_true in Hk as (a & b & Hk).
  apply contains_true. exists (str_lower x ++ a), (b ++ str_lower y).
  rewrite !str_lower_app, Hk, !append_assoc. reflexivity.
Qed.

Lemma detect_mode_survives_context_witness :
  detect_mode "it crashes" = "debugging" /\
  detect_mode ("Since the upgrade " ++ "it crashes" ++ " on start")
  = "debugging".
Proof.
  split; [reflexivity|].
  apply (detect_mode_survives_context "it crashes"). reflexivity.
Defined.

Lemma dict_get_step {A : Type} (k : string) (v : A) (d : list (string * A))
  (key : string) (default : A) :
  dict_get ((k, v) :: d) key default
  = if String.eqb k key then v else dict_get d key default.
Proof. reflexivity. Qed.

(** X2.  [get_attention_budget] answers every mode string: a mode that is not
    in [MODES] gets the budget of "coding", and whatever the mode, the
    budget has five fractions whose binary64 sum is within [epsilon] of
    1.0; so has the budget of the mode detected for any message. *)
Theorem every_mode_has_a_full_budget :
  forall mode,
    (String.eqb "coding" mode = false ->
     String.eqb "debugging" mode = false ->
     get_attention_budget mode = get_attention_budget "coding") /\
    List.length (get_attention_budget mode) = 5%nat /\
    sums_to_one (map snd (get_attention_budget mode)) = true /\
    forall message,
      sums_to_one (map snd (get_attention_budget (detect_mode message)))
      = true.
Proof.
  assert (G : forall mode,
             List.length (get_attention_budget mode) = 5%nat /\
             sums_to_one (map snd (get_attention_budget mode)) = true).
  { intros mode. unfold get_attention_budget, MODES.
    rewrite !dict_get_step.
    destruct (String.eqb "coding" mode);
      [|destruct (String.eqb "debugging" mode)];
      split; vm_compute; reflexivity. }
  intros mode. split; [|split; [apply G | split; [apply G|]]].
  - intros Hc Hd. unfold get_attention_budget at 1. unfold MODES.
    rewrite !dict_get_step, Hc, Hd. reflexivity.
  - intros message. apply G.
Qed.

End MoreModes.

(* ------------------------------------------------------------------ *)
(** ** [validate_input] *)

Section MoreValidation.
Import text storage python simplecontext.

Lemma all_space_strip (s : string) :
  all_space s = false -> String.eqb (strip s) "" = false.
Proof.
  intros H. apply String.eqb_neq. intros E.
  apply strip_empty in E. congruence.
Qed.

Lemma validate_input_passes (content field_name : string) (max_length : Z) :
  all_space content = false ->
  (Z.of_nat (String.length content) <= max_length)%Z ->
  validate_input content field_name max_length = Ok tt.
Proof.
  intros Hs Hl. unfold validate_input.
  rewrite (all_space_strip _ Hs).
  destruct (Z.ltb_spec max_length (Z.of_nat (String.length content)));
    [lia | reflexivity].
Qed.

Lemma validate_input_passed (content field_name : string) (max_length : Z) :
  validate_input content field_name max_length = Ok tt ->
  all_space content = false /\
  (Z.of_nat (String.length content) <= max_length)%Z.
Proof.
  unfold validate_input.
  destruct (String.eqb (strip content) "") eqn:Es; [discriminate|].
  destruct (Z.ltb_spec max_length (Z.of_nat (String.length content)));
    [discriminate|].
  intros _. split; auto.
  destruct (all_space content) eqn:Ea; auto.
  apply strip_empty in Ea. rewrite Ea in Es. discriminate.
Qed.

(** X3.  [validate_input] accepts exactly the strings that are not white space
    only and not longer than [max_length].  White-space-only content is
    reported as empty, also when it is too long; other content over the
    length is reported with the limit.  White space is what [str.isspace]
    says: the code points 9 to 13, 28 to 32, 133 (next line) and 160
    (no-break space); content made of the last two is reported as empty. *)
Theorem validate_input_accepts_exactly :
  forall (content field_name : string) (max_length : Z),
    (validate_input content field_name max_length = Ok tt <->
     all_space content = false /\
     (Z.of_nat (String.length content) <= max_length)%Z) /\
    (all_space content = true ->
     validate_input content field_name max_length
     = Raise (ValueError (field_name ++ " cannot be empty"))) /\
    (all_space content = false ->
     (max_length < Z.of_nat (String.length content))%Z ->
     validate_input content field_name max_length
     = Raise (ValueError (field_name ++ " exceeds maximum length of "
                            ++ str_of_int max_length ++ " characters"))) /\
    (forall c, is_space c
               = existsb (N.eqb (N_of_ascii c))
                   [9; 10; 11; 12; 13; 28; 29; 30; 31; 32; 133; 160]%N) /\
    validate_input (String (ascii_of_N 160) (String (ascii_of_N 133) ""))
                   "content" max_length
    = Raise (ValueError "content cannot be empty").
Proof.
  intros content field_name max_length.
  split; [|split; [|split; [|split; [|reflexivity]]]].
  - split.
    + apply validate_input_passed.
    + intros [Hs Hl]. apply validate_input_passes; auto.
  - intros Hs. unfold validate_input.
    rewrite (proj2 (strip_empty content) Hs). reflexivity.
  - intros Hs Hl. unfold validate_input.
    rewrite (all_space_strip _ Hs).
    apply Z.ltb_lt in Hl. rewrite Hl. reflexivity.
  - intros c. destruct c as [[] [] [] [] [] [] [] []]; reflexivity.
Qed.

End MoreValidation.

(* ------------------------------------------------------------------ *)
(** ** [forget], again *)

Section MoreForget.
Import text sqlite storage python memory ledger notions notions2.

Lemma lower_char_twice (c : ascii) : lower_char (lower_char c) = lower_char c.
Proof. destruct c as [[] [] [] [] [] [] [] []]; reflexivity. Qed.

Lemma lower_twice (s : string) : lower (lower s) = lower s.
Proof.
  induction s as [|c s IH]; simpl; [|rewrite lower_char_twice, IH]; reflexivity.
Qed.

Lemma lower_char_is_percent (c : ascii) :
  Ascii.eqb (lower_char c) "%" = Ascii.eqb c "%".
Proof. destruct c as [[] [] [] [] [] [] [] []]; reflexivity. Qed.

Lemma lower_char_is_underscore (c : ascii) :
  Ascii.eqb (lower_char c) "_" = Ascii.eqb c "_".
Proof. destruct c as [[] [] [] [] [] [] [] []]; reflexivity. Qed.

Lemma compare_lower (pattern s : string) :
  pattern_compare (lower pattern) (lower s) = pattern_compare pattern s.
Proof.
  revert s. induction pattern as [|c p IH]; intros s.
  - destruct s; reflexivity.
  - cbn [lower pattern_compare]. rewrite lower_char_is_percent.
    destruct (Ascii.eqb c "%").
    + symmetry. apply any_suffix_lower. intros s'. symmetry. apply IH.
    + destruct s as [|d s]; cbn [lower]; [reflexivity|].
      rewrite lower_char_is_underscore, !lower_char_twice, IH. reflexivity.
Qed.

Lemma lower_char_is_nul (c : ascii) :
  (N_of_ascii (lower_char c) =? 0)%N = (N_of_ascii c =? 0)%N.
Proof. destruct c as [[] [] [] [] [] [] [] []]; reflexivity. Qed.

Lemma c_string_lower (s : string) : c_string (lower s) = lower (c_string s).
Proof.
  induction s as [|c s IH]; [reflexivity|].
  cbn [lower c_string]. rewrite lower_char_is_nul.
  destruct (N_of_ascii c =? 0)%N; [reflexivity|].
  cbn [lower]. rewrite IH. reflexivity.
Qed.

(** LIKE does not see the ASCII letter case of its two sides. *)
Lemma like_lower (pattern s : string) :
  like (lower pattern) (lower s) = like pattern s.
Proof. unfold like. rewrite !c_string_lower. apply compare_lower. Qed.

Lemma lower_char_is_ascii (c : ascii) :
  (N_of_ascii (lower_char c) <? 128)%N = (N_of_ascii c <? 128)%N.
Proof. destruct c as [[] [] [] [] [] [] [] []]; reflexivity. Qed.

(** Lower-casing the ASCII letters keeps the number of bytes. *)
Lemma utf8_len_lower (s : string) : utf8_len (lower s) = utf8_len s.
Proof.
  induction s as [|c s IH]; [reflexivity|].
  cbn [lower utf8_len]. rewrite lower_char_is_ascii, IH. reflexivity.
Qed.

Lemma forget_pattern_lower (query s : string) :
  like ("%" ++ lower query ++ "%") s = like ("%" ++ query ++ "%") s /\
  like ("%" ++ query ++ "%") (lower s) = like ("%" ++ query ++ "%") s.
Proof.
  assert (P : forall q, lower ("%" ++ q ++ "%") = "%" ++ lower q ++ "%").
  { intros q. rewrite !lower_app. reflexivity. }
  split.
  - rewrite <- (like_lower ("%" ++ lower query ++ "%")).
    rewrite <- (like_lower ("%" ++ query ++ "%")).
    rewrite !P, lower_twice. reflexivity.
  - rewrite <- (like_lower ("%" ++ query ++ "%") (lower s)).
    rewrite <- (like_lower ("%" ++ query ++ "%") s).
    rewrite lower_twice. reflexivity.
Qed.

Lemma delete_where_same (p p' : MemoryRow -> bool) (rows kept : list MemoryRow)
  (idx : list FtsEntry) :
  (forall m, p m = p' m) ->
  delete_where p kept rows idx = delete_where p' kept rows idx.
Proof.
  intros Hp. revert kept idx.
  induction rows as [|old rows IH]; intros kept idx; simpl; auto.
  rewrite <- Hp. destruct (p old); rewrite IH; reflexivity.
Qed.

(** X4.  [forget] does not see the ASCII letter case of its query, nor that of
    the contents: the lower-cased query deletes the same memories and
    returns the same count, and a memory is deleted exactly when its
    lower-cased content would be. *)
Theorem forget_ignores_letter_case :
  forall (st : Store) (query : string),
    forget st (lower query) = forget st query /\
    forall content,
      like ("%" ++ query ++ "%") (lower content)
      = like ("%" ++ query ++ "%") content.
Proof.
  intros st query. split.
  - assert (Hd : delete_like st ("%" ++ lower query ++ "%")
                 = delete_like st ("%" ++ query ++ "%")).
    { unfold delete_like.
      rewrite (delete_where_same
                 (fun m => like ("%" ++ lower query ++ "%") (m_content m))
                 (fun m => like ("%" ++ query ++ "%") (m_content m)));
        [reflexivity|].
      intros m. apply forget_pattern_lower. }
    assert (Hc : like_too_complex ("%" ++ lower query ++ "%")
                 = like_too_complex ("%" ++ query ++ "%")).
    { unfold like_too_complex.
      rewrite !utf8_len_pattern, utf8_len_lower. reflexivity. }
    unfold forget. cbv zeta. rewrite Hd, Hc. reflexivity.
  - intros content. apply forget_pattern_lower.
Qed.

Lemma delete_where_none (p : MemoryRow -> bool) (rows kept : list MemoryRow)
  (idx : list FtsEntry) :
  (forall m, In m rows -> p m = false) ->
  delete_where p kept rows idx = ((kept ++ rows)%list, idx, 0%Z).
Proof.
  revert kept. induction rows as [|old rows IH]; intros kept H; simpl.
  - rewrite app_nil_r. reflexivity.
  - rewrite (H old) by (left; reflexivity).
    rewrite IH by (intros m Hm; apply H; right; exact Hm).
    rewrite <- app_assoc. reflexivity.
Qed.

Lemma set_memories_same (st : Store) :
  set_memories st (memories st) (memories_fts st) = st.
Proof. destruct st; reflexivity. Qed.

(** After the DELETE no row matches the pattern: the same DELETE again
    deletes nothing. *)
Lemma delete_like_again (st : Store) (pattern : string) :
  delete_like (fst (delete_like st pattern)) pattern
  = (fst (delete_like st pattern), 0%Z).
Proof.
  pose proof (proj1 (delete_like_rows st pattern)) as Hrows.
  set (st' := fst (delete_like st pattern)) in *.
  unfold delete_like at 1.
  rewrite delete_where_none.
  - simpl. rewrite set_memories_same. reflexivity.
  - intros m Hm. rewrite Hrows in Hm.
    apply filter_In in Hm as [_ Hm]. apply negb_true_iff, Hm.
Qed.

Lemma forget_again (st st' : Store) (query : string) (count : Z) :
  forget st query = Ok (st', count) -> forget st' query = Ok (st', 0%Z).
Proof.
  intros H.
  assert (Hs : st' = fst (delete_like st ("%" ++ query ++ "%")))
    by (apply forget_ok in H; rewrite <- H; reflexivity).
  assert (Hd : delete_like st' ("%" ++ query ++ "%") = (st', 0%Z))
    by (rewrite Hs; apply delete_like_again).
  rewrite <- Hd. apply forget_returns.
  destruct (like_too_complex ("%" ++ query ++ "%")) eqn:Ec;
    [left | right; reflexivity].
  destruct (memories st) as [|m rows] eqn:Em.
  - rewrite Hs, (proj1 (delete_like_rows st _)), Em. reflexivity.
  - rewrite forget_raises in H; [discriminate | | exact Ec].
    rewrite Em. discriminate.
Qed.

(** X5.  A second [forget] of the same query finds nothing: when the first
    returns, the second returns 0 and leaves the store, index included, as
    the first one left it; when the first raises, so does the second.  Either
    way the store after two is the store after one. *)
Theorem forget_twice_is_forget_once :
  forall (st : Store) (query : string),
    (forall st' count,
        forget st query = Ok (st', count) ->
        forget st' query = Ok (st', 0%Z)) /\
    (forall e, forget st query = Raise e ->
               step st (Forget query) = st) /\
    step (step st (Forget query)) (Forget query) = step st (Forget query).
Proof.
  intros st query. split; [|split].
  - intros st' count. apply forget_again.
  - intros e H. unfold step. rewrite H. reflexivity.
  - unfold step at 2 3.
    destruct (forget st query) as [[st' count]|e] eqn:H.
    + unfold step. rewrite (forget_again st st' query count H). reflexivity.
    + unfold step. rewrite H. reflexivity.
Qed.

Lemma forget_twice_is_forget_once_witness :
  let st' := step mysql_ledger (Forget "mysql") in
  forget mysql_ledger "mysql" = Ok (st', 1%Z) /\
  forget st' "mysql" = Ok (st', 0%Z).
Proof.
  intros st'.
  assert (H : forget mysql_ledger "mysql" = Ok (st', 1%Z))
    by (vm_compute; reflexivity).
  split; [exact H|].
  exact (proj1 (forget_twice_is_forget_once mysql_ledger "mysql") st' 1%Z H).
Defined.

Lemma only_percent_no_nul (s : string) :
  only_percent s = true -> no_nul s = true.
Proof.
  induction s as [|c s IH]; simpl; auto.
  intros H. apply andb_true_iff in H as [Hc H].
  apply Ascii.eqb_eq in Hc. subst c. simpl. auto.
Qed.

Lemma only_percent_bytes (s : string) :
  only_percent s = true -> utf8_len s = Z.of_nat (String.length s).
Proof.
  induction s as [|c s IH]; [reflexivity|].
  intros H. cbn [only_percent] in H. apply andb_true_iff in H as [Hc H].
  apply Ascii.eqb_eq in Hc. subst c.
  cbn [utf8_len String.length]. rewrite IH by exact H.
  change (N_of_ascii "%" <? 128)%N with true. cbv iota. lia.
Qed.

Lemma compare_only_percent (pattern s : string) :
  only_percent pattern = true -> pattern <> "" ->
  pattern_compare pattern s = true.
Proof.
  induction pattern as [|c p IH]; intros Hp Hne; [congruence|].
  simpl in Hp. apply andb_true_iff in Hp as [Hc Hp].
  apply Ascii.eqb_eq in Hc. subst c.
  destruct p as [|d p]; [apply compare_any|].
  rewrite compare_percent. apply any_suffix_true. exists "", s.
  split; [reflexivity | apply IH; [exact Hp | discriminate]].
Qed.

Lemma like_only_percent (pattern s : string) :
  only_percent pattern = true -> pattern <> "" -> like pattern s = true.
Proof.
  intros Hp Hne. unfold like.
  rewrite (c_string_no_nul pattern) by (apply only_percent_no_nul, Hp).
  apply compare_only_percent; assumption.
Qed.

Lemma only_percent_app (a b : string) :
  only_percent a = true -> only_percent b = true ->
  only_percent (a ++ b) = true.
Proof.
  induction a as [|c a IH]; simpl; auto.
  intros H Hb. apply andb_true_iff in H as [-> H]. simpl. auto.
Qed.

Lemma only_percent_not_blank (s : string) :
  only_percent s = true -> s <> "" -> all_space s = false.
Proof.
  destruct s as [|c s]; [congruence|]. simpl. intros H _.
  apply andb_true_iff in H as [Hc _]. apply Ascii.eqb_eq in Hc. subst c.
  reflexivity.
Qed.

Lemma filter_all {A : Type} (p : A -> bool) (l : list A) :
  (forall x, p x = true) -> filter p l = l.
Proof.
  intros H. induction l as [|x l IH]; simpl; [|rewrite H, IH]; reflexivity.
Qed.

(** X6.  A query made of [%] characters only, the empty query included, matches
    every content: [forget] then deletes every memory and returns their
    number, as long as the query has at most 49998 characters (the pattern
    at most 50000 bytes) or the table is empty; over a longer one and a table
    with a row it raises [sqlite3.OperationalError].  The tool [forget] turns
    the empty query down but lets such a query of 1 to 1000 characters
    through, and then every memory is deleted. *)
Theorem forget_percent_deletes_everything :
  forall (st : Store) (query : string),
    only_percent query = true ->
    ((Z.of_nat (String.length query) <= 49998)%Z \/ memories st = [] ->
     exists st',
       forget st query = Ok (st', Z.of_nat (List.length (memories st))) /\
       memories st' = []) /\
    ((49998 < Z.of_nat (String.length query))%Z -> memories st <> [] ->
     forget st query = Raise OperationalError) /\
    mcp.forget st "" = (st, simplecontext.ErrorReply "query cannot be empty") /\
    (query <> "" ->
     (Z.of_nat (String.length query) <= simplecontext.MAX_QUERY_LENGTH)%Z ->
     exists st',
       mcp.forget st query
       = (st', simplecontext.Answer (Z.of_nat (List.length (memories st)))) /\
       memories st' = []).
Proof.
  intros st query Hq.
  set (pattern := "%" ++ query ++ "%").
  assert (Hall : forall m, like pattern (m_content m) = true).
  { intros m. apply like_only_percent; [|discriminate].
    apply (only_percent_app "%"); [reflexivity|].
    apply only_percent_app; [exact Hq | reflexivity]. }
  assert (Hlen : like_too_complex pattern
                 = (49998 <? Z.of_nat (String.length query))%Z).
  { unfold like_too_complex, MAX_LIKE_PATTERN_LENGTH, pattern.
    rewrite utf8_len_pattern, only_percent_bytes by exact Hq.
    destruct (Z.ltb_spec 50000 (Z.of_nat (String.length query) + 2));
      destruct (Z.ltb_spec 49998 (Z.of_nat (String.length query)));
      auto; lia. }
  assert (Hdel : exists st',
             delete_like st pattern
             = (st', Z.of_nat (List.length (memories st))) /\
             memories st' = []).
  { destruct (delete_like_rows st pattern) as [Hrows Hcount].
    destruct (delete_like st pattern) as [st' count]. simpl in *.
    exists st'. split.
    - rewrite Hcount, filter_all by exact Hall. reflexivity.
    - rewrite Hrows. apply filter_none. intros m _. rewrite Hall.
      reflexivity. }
  assert (Hok : (Z.of_nat (String.length query) <= 49998)%Z
                \/ memories st = [] ->
                exists st',
                  forget st query
                  = Ok (st', Z.of_nat (List.length (memories st))) /\
                  memories st' = []).
  { intros Hb. destruct Hdel as (st' & Hd & Hm).
    exists st'. split; [|exact Hm]. rewrite <- Hd. apply forget_returns.
    destruct Hb as [Hb | Hb]; [right | left; exact Hb].
    fold pattern. rewrite Hlen. apply Z.ltb_ge. exact Hb. }
  split; [exact Hok|]. split; [|split; [reflexivity|]].
  - intros Hb Hm. apply forget_raises; [exact Hm|].
    fold pattern. rewrite Hlen. apply Z.ltb_lt. exact Hb.
  - intros Hne Hb.
    destruct Hok as (st' & Hf & Hm).
    { left. unfold simplecontext.MAX_QUERY_LENGTH in Hb. lia. }
    exists st'. split; [|exact Hm].
    unfold mcp.forget, mcp.forget_try.
    rewrite validate_input_passes;
      [| apply only_percent_not_blank; assumption | exact Hb].
    unfold bind. rewrite Hf. reflexivity.
Qed.

Lemma forget_percent_deletes_everything_witness :
  only_percent "%" = true /\
  exists st',
    mcp.forget mysql_ledger "%" = (st', simplecontext.Answer 1%Z) /\
    memories st' = [].
Proof.
  split; [reflexivity|].
  apply (proj2 (proj2 (proj2 (forget_percent_deletes_everything
                                mysql_ledger "%" eq_refl)))).
  - discriminate.
  - vm_compute. discriminate.
Defined.

Lemma forget_status (st st' : Store) (query : string) (count : Z) :
  forget st query = Ok (st', count) ->
  s_memories (status st') = (s_memories (status st) - count)%Z /\
  (0 <= count)%Z /\
  s_artifacts (status st') = s_artifacts (status st) /\
  s_unresolved_errors (status st') = s_unresolved_errors (status st).
Proof.
  intros H. apply forget_ok in H.
  destruct (delete_like_rows st ("%" ++ query ++ "%")) as [Hrows Hcount].
  destruct (delete_like_other_tables st ("%" ++ query ++ "%"))
    as (Ha & He & _).
  rewrite <- H in Hrows, Hcount, Ha, He.
  cbn [fst snd] in Hrows, Hcount, Ha, He.
  unfold status. cbn [s_memories s_artifacts s_unresolved_errors].
  rewrite Ha, He, Hrows, Hcount.
  repeat split; [|lia].
  pose proof (filter_length
                (fun m => like ("%" ++ query ++ "%") (m_content m))
                (memories st)) as Hl.
  rewrite <- Hl, Nat2Z.inj_add. lia.
Qed.

(** X7.  [status] after [forget]: when [forget] returns, the memory count has
    gone down by exactly the count returned, which is not negative, and the
    other two counts stay.  Whether it returns or raises, the memory count
    of the ledger does not go up and the other two counts stay. *)
Theorem forget_count_is_the_status_drop :
  forall (st : Store) (query : string),
    (forall st' count,
        forget st query = Ok (st', count) ->
        s_memories (status st') = (s_memories (status st) - count)%Z /\
        (0 <= count)%Z /\
        s_artifacts (status st') = s_artifacts (status st) /\
        s_unresolved_errors (status st') = s_unresolved_errors (status st)) /\
    (let st' := step st (Forget query) in
     (s_memories (status st') <= s_memories (status st))%Z /\
     s_artifacts (status st') = s_artifacts (status st) /\
     s_unresolved_errors (status st') = s_unresolved_errors (status st)).
Proof.
  intros st query. split.
  - intros st' count. apply forget_status.
  - unfold step. destruct (forget st query) as [[st' count]|e] eqn:H.
    + destruct (forget_status st st' query count H) as (Hm & Hc & Ha & He).
      cbv zeta. rewrite Hm, Ha, He. repeat split. lia.
    + cbv zeta. repeat split. lia.
Qed.

Lemma forget_count_is_the_status_drop_witness :
  let st' := step mysql_ledger (Forget "mysql") in
  forget mysql_ledger "mysql" = Ok (st', 1%Z) /\
  s_memories (status st') = (s_memories (status mysql_ledger) - 1)%Z.
Proof.
  intros st'.
  assert (H : forget mysql_ledger "mysql" = Ok (st', 1%Z))
    by (vm_compute; reflexivity).
  split; [exact H|].
  exact (proj1 (proj1 (forget_count_is_the_status_drop mysql_ledger "mysql")
                  st' 1%Z H)).
Defined.

End MoreForget.

(* ------------------------------------------------------------------ *)
(** ** The ledger over whole runs *)

Section MoreLedger.
Import text sqlite storage python memory ledger notions notions2.

Lemma run_keeps (P : Store -> Prop) :
  P init_schema -> (forall st o, P st -> P (step st o)) ->
  forall ops, P (run ops).
Proof.
  intros Hinit Hstep ops. unfold run.
  generalize init_schema Hinit. induction ops as [|o ops IH]; simpl; auto.
Qed.

Lemma sorted_filter_rows {B : Type} (R : B -> B -> Prop) (f : MemoryRow -> B)
  (keep : MemoryRow -> bool) (rows : list MemoryRow) :
  StronglySorted R (map f rows) -> StronglySorted R (map f (filter keep rows)).
Proof.
  induction rows as [|m rows IH]; simpl; intros H; [constructor|].
  apply StronglySorted_inv in H as [Hs Hall].
  destruct (keep m); simpl; [|exact (IH Hs)].
  constructor; [exact (IH Hs)|].
  rewrite Forall_forall in *. intros b Hb. apply Hall.
  apply in_map_iff in Hb as (m' & <- & Hm').
  apply filter_In in Hm' as [Hm' _]. apply in_map, Hm'.
Qed.

Lemma sorted_snoc (l : list Z) (x : Z) :
  StronglySorted Z.lt l -> Forall (fun y => (y < x)%Z) l ->
  StronglySorted Z.lt (l ++ [x]).
Proof.
  induction 1 as [|y l Hs IH Hall]; intros Hx; simpl.
  - constructor; constructor.
  - inversion Hx as [|? ? Hy Hl]; subst. constructor; [apply IH, Hl|].
    apply Forall_app. split; auto.
Qed.

Lemma max_rowid_nonneg (l : list Z) : (0 <= max_rowid l)%Z.
Proof. induction l as [|y l IH]; simpl; lia. Qed.

Lemma ids_filter_rows (keep : MemoryRow -> bool) (rows : list MemoryRow) :
  NoDup (map m_id rows) -> NoDup (map m_id (filter keep rows)).
Proof.
  induction rows as [|m rows IH]; simpl; intros H; [constructor|].
  apply NoDup_cons_iff in H as [Hm Hrows].
  destruct (keep m); simpl; [|exact (IH Hrows)].
  apply NoDup_cons; [|exact (IH Hrows)].
  intros Hin. apply Hm.
  apply in_map_iff in Hin as (m' & Eq & Hin).
  apply filter_In in Hin as [Hin _].
  rewrite <- Eq. apply in_map, Hin.
Qed.

(** X8.  The keys of [memories] over every run of [remember] and [forget] from
    the fresh store: no two rows share an id (a [remember] under an id in
    use raises and changes nothing), and the rowids are positive and grow
    strictly along the table, so a new memory is always scanned last. *)
Theorem ledger_keys_stay_distinct :
  forall ops,
    NoDup (map m_id (memories (run ops))) /\
    StronglySorted Z.lt (map m_rowid (memories (run ops))) /\
    Forall (fun r => (0 < r)%Z) (map m_rowid (memories (run ops))).
Proof.
  apply run_keeps with (P := fun st =>
    NoDup (map m_id (memories st)) /\
    StronglySorted Z.lt (map m_rowid (memories st)) /\
    Forall (fun r => (0 < r)%Z) (map m_rowid (memories st))).
  - simpl. repeat split; constructor.
  - intros st o (Hid & Hsorted & Hpos).
    destruct o as [id now c tags imp | query].
    + simpl. unfold memory.remember.
      destruct (existsb _ (memories st)) eqn:Ex; simpl; [auto|].
      rewrite !map_app. simpl.
      pose proof (max_rowid_nonneg (map m_rowid (memories st))) as Hmax.
      split; [|split].
      * apply NoDup_rev in Hid. rewrite <- (rev_involutive (_ ++ _)%list).
        apply NoDup_rev. rewrite rev_app_distr. simpl.
        constructor; auto. rewrite <- in_rev, in_map_iff.
        intros (m & Em & Hm).
        assert (Ht : existsb (fun m => String.eqb (m_id m) id) (memories st)
                     = true).
        { apply existsb_exists. exists m. split; auto.
          apply String.eqb_eq, Em. }
        congruence.
      * apply sorted_snoc; auto. apply Forall_forall. intros y Hy.
        apply max_rowid_ge in Hy. unfold next_rowid. lia.
      * apply Forall_app. split; auto. constructor; [|constructor].
        unfold next_rowid. lia.
    + destruct (step_forget st query) as [Hs | Hs]; rewrite Hs; [auto|].
      rewrite (proj1 (delete_like_rows st _)).
      split; [apply ids_filter_rows, Hid|].
      split; [apply sorted_filter_rows, Hsorted|].
      rewrite Forall_forall in *. intros r Hr. apply Hpos.
      apply in_map_iff in Hr as (m & <- & Hm).
      apply filter_In in Hm as [Hm _]. apply in_map, Hm.
Qed.



End MoreLedger.

(* ------------------------------------------------------------------ *)
(** ** [recall], again *)

Section MoreRecall.
Import text sqlite storage python memory ledger notions notions2.

Lemma denominator_ge_one (ms : Z) : (0 <= ms)%Z -> (1 <= denominator ms)%Q.
Proof.
  cbv beta iota delta [denominator MS_PER_DAY Qle Qplus Qmult Qdiv Qinv
                         inject_Z Qnum Qden].
  lia.
Qed.

Lemma age_nonneg (ms : Z) :
  (0 <= ms)%Z -> (0 <= inject_Z ms / inject_Z MS_PER_DAY)%Q.
Proof.
  cbv beta iota delta [MS_PER_DAY Qle Qmult Qdiv Qinv inject_Z Qnum Qden].
  lia.
Qed.

(** X10.  The score of a memory that was not created after the clock of the
    query: its age is not negative and its score lies in (0, 1].  Among such
    memories a later creation time never has the lower score. *)
Theorem recency_score_in_unit_interval :
  forall (now t : Q) (c : Z),
    julianday_unixepoch_ms t = Some c ->
    (c <= julianday_now_ms now)%Z ->
    (exists a s,
        age_days now t = Some a /\ recency_score now t = Some s /\
        (0 <= a)%Q /\ (0 < s)%Q /\ (s <= 1)%Q) /\
    (forall t' c',
        julianday_unixepoch_ms t' = Some c' -> (c' <= c)%Z ->
        key_ge (recency_score now t) (recency_score now t') = true).
Proof.
  intros now t c Hc Hle.
  set (n := julianday_now_ms now) in *.
  assert (D1 : (1 <= denominator (n - c))%Q) by (apply denominator_ge_one; lia).
  assert (D0 : (0 < denominator (n - c))%Q).
  { eapply Qlt_le_trans; [|exact D1]. reflexivity. }
  split.
  - exists (inject_Z (n - c) / inject_Z MS_PER_DAY)%Q,
           (1 / denominator (n - c))%Q.
    split; [unfold age_days; rewrite Hc; reflexivity|].
    split; [apply recency_score_denominator; assumption|].
    split; [apply age_nonneg; lia|].
    split.
    + unfold Qdiv. rewrite Qmult_1_l. apply Qinv_lt_0_compat, D0.
    + apply Qle_shift_div_r; [exact D0|]. rewrite Qmult_1_l. exact D1.
  - intros t' c' Hc' Hle'.
    destruct (Z.eq_dec c' c) as [-> | Hne].
    + assert (Es : recency_score now t' = recency_score now t).
      { unfold recency_score, age_days. rewrite Hc, Hc'. reflexivity. }
      rewrite Es. apply key_ge_refl.
    + apply key_ge_total.
      apply (recency_score_later now t' t c' c); auto; try lia.
      unfold MS_PER_DAY. fold n. lia.
Qed.

Lemma recency_score_in_unit_interval_witness :
  let t := (1700000000 + (2605 # 1048576))%Q in
  julianday_unixepoch_ms t = Some 212566760000003%Z /\
  (212566760000003 <= julianday_now_ms 1700000001)%Z /\
  exists a s,
    age_days 1700000001 t = Some a /\ recency_score 1700000001 t = Some s /\
    (0 <= a)%Q /\ (0 < s)%Q /\ (s <= 1)%Q.
Proof.
  intros t.
  assert (H : julianday_unixepoch_ms t = Some 212566760000003%Z)
    by (vm_compute; reflexivity).
  split; [exact H|]. split; [vm_compute; discriminate|].
  apply (recency_score_in_unit_interval 1700000001 t 212566760000003 H).
  vm_compute. discriminate.
Defined.

Context {E : Fts5}.

(** X11.  With room for every match, [recall] leaves none out: under no limit
    (a negative one) or a limit not below the number of matching memories,
    the rows returned are all of them, each once. *)
Theorem recall_with_room_returns_every_match :
  forall (st : Store) (now : Q) (query : string) (q : fts5_query) (limit : Z),
    fts5_parse query = Some q ->
    (limit < 0 \/ Z.of_nat (List.length (matching st q)) <= limit)%Z ->
    exists rows,
      memory.recall st now query limit = Ok rows /\
      Permutation rows (map (select_recall now) (matching st q)) /\
      List.length rows = List.length (matching st q).
Proof.
  intros st now query q limit Hq Hroom.
  set (ranking := order_by_desc r_recency_score
                    (map (select_recall now) (matching st q))).
  assert (Hp : Permutation ranking (map (select_recall now) (matching st q)))
    by apply order_by_desc_perm.
  assert (Hl : List.length ranking = List.length (matching st q)).
  { rewrite (Permutation_length Hp). apply length_map. }
  exists ranking. split; [|split; assumption].
  unfold memory.recall. rewrite Hq. fold ranking.
  destruct (Z.eqb_spec limit 0) as [H0 | H0]; f_equal.
  - destruct ranking as [|r rest]; [reflexivity | simpl in Hl; lia].
  - unfold sqlite.limit. destruct (Z.ltb_spec limit 0); [reflexivity|].
    apply firstn_all2. lia.
Qed.

(** X12.  The test [test_temporal_decay] in general: when one matching memory is
    strictly the newest (to the millisecond) and less than ten days ahead of
    the clock, [recall] returns it first, under every limit but 0. *)
Theorem recall_puts_the_newest_first :
  forall (st : Store) (now : Q) (query : string) (q : fts5_query) (limit : Z)
         (newest : MemoryRow) (cn : Z),
    fts5_parse query = Some q ->
    limit <> 0%Z ->
    In newest (matching st q) ->
    created_ms newest cn ->
    (cn - julianday_now_ms now < 10 * MS_PER_DAY)%Z ->
    (forall m, In m (matching st q) ->
               m = newest \/ exists c, created_ms m c /\ (c < cn)%Z) ->
    exists rest,
      memory.recall st now query limit
      = Ok (select_recall now newest :: rest).
Proof.
  intros st now query q limit newest cn Hq Hlim Hin Hcn Hnear Hothers.
  set (ranking := order_by_desc r_recency_score
                    (map (select_recall now) (matching st q))).
  assert (Hs : StronglySorted (ranks_ge r_recency_score) ranking)
    by apply order_by_desc_sorted.
  assert (Hn : In (select_recall now newest) ranking)
    by (apply In_order_by_desc, in_map, Hin).
  assert (Hhead : exists tl, ranking = select_recall now newest :: tl).
  { destruct ranking as [|h tl] eqn:Er; [destruct Hn|].
    assert (Hh : In h (map (select_recall now) (matching st q))).
    { apply (In_order_by_desc r_recency_score). fold ranking.
      rewrite Er. left. reflexivity. }
    apply in_map_iff in Hh as (e & <- & He).
    destruct (Hothers e He) as [-> | (c & Hc & Hlt)]; [eauto|].
    destruct Hn as [Hn | Hn]; [rewrite Hn; eauto|].
    exfalso. apply StronglySorted_inv in Hs as [_ Hall].
    rewrite Forall_forall in Hall. specialize (Hall _ Hn).
    unfold ranks_ge in Hall. simpl in Hall.
    rewrite (recency_score_later now _ _ c cn Hc Hcn Hlt Hnear) in Hall.
    discriminate. }
  destruct Hhead as (tl & Hr).
  rewrite (recall_accepted st now query q limit Hq Hlim).
  fold ranking. rewrite Hr.
  unfold sqlite.limit. destruct (Z.ltb_spec limit 0); [eauto|].
  destruct (Z.to_nat limit) as [|k] eqn:Ek; [lia|].
  simpl. eauto.
Qed.

(** X13.  What the tool [recall] answers with rows was asked with a limit from
    1 to 100 and a valid query, and holds at most [limit] rows: those
    [SimpleMemory.recall] returns. *)
Theorem recall_tool_answers_within_limit :
  forall (st : Store) (now : Q) (query : string) (limit : Z)
         (rows : list RecallRow),
    simplecontext.recall st now query limit = simplecontext.Answer rows ->
    (1 <= limit <= 100)%Z /\
    (Z.of_nat (List.length rows) <= limit)%Z /\
    all_space query = false /\
    (Z.of_nat (String.length query) <= 1000)%Z /\
    memory.recall st now query limit = Ok rows.
Proof.
  intros st now query limit rows.
  unfold simplecontext.recall, simplecontext.recall_try.
  destruct (simplecontext.validate_input query "query"
              simplecontext.MAX_QUERY_LENGTH) as [[]|e] eqn:Ev;
    [|destruct e; discriminate].
  apply validate_input_passed in Ev as [Hs Hlen].
  unfold bind.
  destruct ((limit <? 1) || (100 <? limit))%Z eqn:El; [discriminate|].
  apply orb_false_iff in El as [L1 L2].
  apply Z.ltb_ge in L1, L2.
  destruct (memory.recall st now query limit) as [rs|e] eqn:Er;
    [|destruct e; discriminate].
  unfold simplecontext.render_rows.
  destruct (existsb _ rs); [discriminate|].
  intros H. injection H as ->.
  repeat split; auto; try lia.
  unfold memory.recall in Er.
  destruct (Z.eqb_spec limit 0); [lia|].
  destruct (fts5_parse query); [|discriminate].
  injection Er as <-. unfold sqlite.limit.
  destruct (Z.ltb_spec limit 0); [lia|]. rewrite length_firstn. lia.
Qed.

End MoreRecall.

Section MoreRecallExamples.
Import text sqlite storage python memory ledger notions notions2.

Lemma recall_with_room_returns_every_match_witness :
  @fts5_parse one_word "fact" = Some "fact" /\
  exists rows,
    @memory.recall one_word apart 1700000002 "fact" 5 = Ok rows /\
    List.length rows = 2%nat.
Proof.
  split; [reflexivity|].
  destruct (@recall_with_room_returns_every_match one_word apart 1700000002
              "fact" "fact" 5 eq_refl)
    as (rows & Hr & _ & Hl).
  - right. vm_compute. discriminate.
  - exists rows. split; [exact Hr | exact Hl].
Defined.

Lemma recall_puts_the_newest_first_witness :
  created_ms (old_fact 1700000000) 212566760000000 /\
  created_ms (recent_fact (1700000000 + (1 # 2048))) 212566760000001 /\
  exists rest,
    @memory.recall one_word rounded_up 1700000002 "fact" 1
    = Ok (select_recall 1700000002 (recent_fact (1700000000 + (1 # 2048)))
            :: rest).
Proof.
  assert (Ho : created_ms (old_fact 1700000000) 212566760000000)
    by (vm_compute; reflexivity).
  assert (Hn : created_ms (recent_fact (1700000000 + (1 # 2048)))
                          212566760000001)
    by (vm_compute; reflexivity).
  split; [exact Ho|]. split; [exact Hn|].
  apply (@recall_puts_the_newest_first one_word rounded_up 1700000002
           "fact" "fact" 1 (recent_fact (1700000000 + (1 # 2048)))
           212566760000001).
  - reflexivity.
  - discriminate.
  - right. left. reflexivity.
  - exact Hn.
  - vm_compute. reflexivity.
  - intros m [<- | [<- | []]].
    + right. exists 212566760000000%Z. split; [exact Ho | reflexivity].
    + left. reflexivity.
Defined.

Lemma recall_tool_answers_within_limit_witness :
  (Z.of_nat
     (List.length [select_recall 1700000002 (recent_fact 1700000001)]) <= 1)%Z.
Proof.
  apply (@recall_tool_answers_within_limit one_word apart 1700000002 "fact" 1).
  vm_compute. reflexivity.
Defined.

End MoreRecallExamples.

(* ------------------------------------------------------------------ *)
(** ** The artifact vault, again *)

Section MoreVault.
Import text storage python memory ledger notions notions2.

Lemma retrieve_other_name (st : Store) (artifact_id : string) (now : Q)
  (name content other : string) :
  String.eqb name other = false ->
  stored_under (fst (store st artifact_id now name content)) other
  = filter (fun a => negb (String.eqb (a_id a) artifact_id))
           (stored_under st other).
Proof.
  intros Hne. unfold stored_under, store. simpl.
  rewrite filter_app. simpl. rewrite Hne, app_nil_r.
  induction (artifacts st) as [|a l IH]; simpl; auto.
  destruct (String.eqb (a_name a) other) eqn:Eo;
    destruct (String.eqb (a_id a) artifact_id) eqn:Ei;
    destruct (String.eqb (a_name a) name) eqn:En;
    simpl; rewrite ?Eo, ?Ei; simpl; rewrite ?IH; auto.
  all: apply String.eqb_eq in Eo, En; rewrite <- En, Eo in Hne;
    rewrite String.eqb_refl in Hne; discriminate.
Qed.

Lemma filter_all_in {A : Type} (p : A -> bool) (l : list A) :
  (forall x, In x l -> p x = true) -> filter p l = l.
Proof.
  induction l as [|x l IH]; simpl; intros H; auto.
  rewrite (H x) by auto. f_equal. apply IH. auto.
Qed.

(** X14.  [store] under an id that no stored artifact has touches one name only:
    [retrieve] of every other name answers as before.  (Under the id of an
    artifact stored under another name, INSERT OR REPLACE deletes that
    artifact: [retrieve] of its name then finds nothing, when names are
    distinct.) *)
Theorem store_leaves_other_names :
  forall (st : Store) (artifact_id : string) (now : Q)
         (name content other : string),
    other <> name ->
    let st' := fst (store st artifact_id now name content) in
    ((forall a, In a (artifacts st) -> a_id a <> artifact_id) ->
     retrieve st' other = retrieve st other) /\
    (forall a, In a (artifacts st) -> a_name a = other ->
               a_id a = artifact_id ->
               NoDup (map a_name (artifacts st)) ->
               retrieve st' other = None).
Proof.
  intros st artifact_id now name content other Hne st'.
  assert (Hb : String.eqb name other = false).
  { apply String.eqb_neq. congruence. }
  unfold retrieve. rewrite !find_stored_under.
  unfold st'. rewrite (retrieve_other_name _ _ _ _ _ _ Hb).
  split.
  - intros Hfresh. rewrite filter_all_in; auto.
    intros a Ha. apply filter_In in Ha as [Ha _].
    apply negb_true_iff, String.eqb_neq, Hfresh, Ha.
  - intros a Ha Hn Hi Hnd.
    replace (filter _ (stored_under st other)) with (@nil ArtifactRow);
      [reflexivity|].
    symmetry. apply filter_none. intros b Hb'.
    apply filter_In in Hb' as [Hb' Hbn]. apply String.eqb_eq in Hbn.
    assert (b = a); [|subst b; rewrite Hi, String.eqb_refl; reflexivity].
    clear -Ha Hb' Hn Hbn Hnd.
    induction (artifacts st) as [|x l IH]; [destruct Ha|].
    simpl in Hnd. apply NoDup_cons_iff in Hnd as [Hx Hl].
    destruct Ha as [-> | Ha], Hb' as [-> | Hb']; auto.
    + exfalso. apply Hx. rewrite Hn, <- Hbn. apply in_map, Hb'.
    + exfalso. apply Hx. rewrite Hbn, <- Hn. apply in_map, Ha.
Qed.

Lemma store_leaves_other_names_witness :
  retrieve (fst (store init_schema "id-1" 1700000000 "db.sql" "CREATE TABLE x"))
           "notes.txt"
  = retrieve init_schema "notes.txt".
Proof.
  apply (proj1 (store_leaves_other_names init_schema "id-1" 1700000000
                  "db.sql" "CREATE TABLE x" "notes.txt"
                  ltac:(discriminate))).
  intros a [].
Defined.

(** X15.  The artifact table over every run of [store] calls from the fresh
    store: no two artifacts share an id, the [size] of each is the length of
    its content, and there are no more artifacts than calls. *)
Theorem vault_rows_stay_well_formed :
  forall calls,
    let arts := artifacts (store_all calls init_schema) in
    NoDup (map a_id arts) /\
    Forall (fun a => a_size a = Z.of_nat (String.length (a_content a))) arts /\
    (List.length arts <= List.length calls)%nat.
Proof.
  intros calls.
  assert (G : forall st,
             NoDup (map a_id (artifacts st)) ->
             Forall (fun a => a_size a
                              = Z.of_nat (String.length (a_content a)))
                    (artifacts st) ->
             let arts := artifacts (store_all calls st) in
             NoDup (map a_id arts) /\
             Forall (fun a => a_size a
                              = Z.of_nat (String.length (a_content a))) arts /\
             (List.length arts
              <= List.length (artifacts st) + List.length calls)%nat).
  { induction calls as [|[[[i t] n] c] calls IH]; intros st Hid Hsize.
    - simpl. repeat split; auto. lia.
    - change (store_all ((i, t, n, c) :: calls) st)
        with (store_all calls (fst (store st i t n c))).
      set (kept := filter (fun a => negb (String.eqb (a_id a) i
                                          || String.eqb (a_name a) n))
                          (artifacts st)).
      assert (Hk : forall a, In a kept -> In a (artifacts st) /\ a_id a <> i).
      { intros a Ha. apply filter_In in Ha as [Ha Hf]. split; auto.
        apply negb_true_iff, orb_false_iff in Hf as [Hf _].
        apply String.eqb_neq, Hf. }
      destruct (IH (fst (store st i t n c))) as (H1 & H2 & H3).
      + unfold store. simpl. fold kept. rewrite map_app. simpl.
        apply NoDup_rev in Hid. rewrite <- (rev_involutive (_ ++ _)%list).
        apply NoDup_rev. rewrite rev_app_distr. simpl.
        constructor.
        * rewrite <- in_rev, in_map_iff. intros (a & Ea & Ha).
          apply Hk in Ha as [_ Ha]. contradiction.
        * apply NoDup_rev. apply NoDup_rev in Hid.
          rewrite rev_involutive in Hid. clear -Hid. unfold kept.
          induction (artifacts st) as [|a l IHl]; simpl; [constructor|].
          simpl in Hid. apply NoDup_cons_iff in Hid as [Ha Hl].
          destruct (negb _); simpl; [|exact (IHl Hl)].
          apply NoDup_cons; [|exact (IHl Hl)].
          intros Hin. apply Ha.
          apply in_map_iff in Hin as (b & Eb & Hb).
          apply filter_In in Hb as [Hb _]. rewrite <- Eb. apply in_map, Hb.
      + unfold store. simpl. fold kept. apply Forall_app. split.
        * rewrite Forall_forall in *. intros a Ha.
          apply Hsize, Hk, Ha.
        * constructor; [reflexivity | constructor].
      + cbv zeta in *. split; [exact H1 | split; [exact H2|]].
        assert (Hlen : (List.length (artifacts (fst (store st i t n c)))
                        <= S (List.length (artifacts st)))%nat).
        { unfold store. simpl. rewrite length_app. simpl.
          pose proof (filter_length_le
                        (fun a => negb (String.eqb (a_id a) i
                                        || String.eqb (a_name a) n))
                        (artifacts st)).
          lia. }
        change (List.length ((i, t, n, c) :: calls))
          with (S (List.length calls)).
        lia. }
  destruct (G init_schema) as (H1 & H2 & H3);
    [constructor | constructor |].
  repeat split; auto.
Qed.

Context {R : simplecontext.Regex}.

(** X16.  The tools [store] and [retrieve] form a round trip: what the tool
    [store] accepts, the tool [retrieve] returns under the same name right
    after; a [store] the tool turns down leaves the store as it was. *)
Theorem store_tool_then_retrieve_tool :
  forall (st st' : Store) (artifact_id : string) (now : Q)
         (name content : string),
    (forall a, mcp.store st artifact_id now name content
               = (st', simplecontext.Answer a) ->
               mcp.retrieve st' name = simplecontext.Answer (Some content) /\
               fst a = Z.of_nat (String.length content)) /\
    (forall msg, mcp.store st artifact_id now name content
                 = (st', simplecontext.ErrorReply msg) ->
                 st' = st).
Proof.
  intros st st' artifact_id now name content.
  unfold mcp.store, mcp.store_try.
  destruct (simplecontext.validate_input name "name" 255) as [[]|e] eqn:En;
    [|split; intros x H; destruct e; simpl in H;
      try discriminate; injection H as <-; auto].
  destruct (simplecontext.validate_input content "content"
              (simplecontext.MAX_CONTENT_LENGTH * 10)) as [[]|e] eqn:Ec;
    [|split; intros x H; destruct e; simpl in H;
      try discriminate; injection H as <-; auto].
  unfold bind. split; [|intros msg H; discriminate].
  intros a H.
  assert (Hst : st' = fst (store st artifact_id now name content))
    by (injection H as H1 _; symmetry; exact H1).
  split; [|injection H as _ <-; reflexivity].
  rewrite Hst. clear H Hst.
  unfold mcp.retrieve, mcp.retrieve_try. rewrite En. unfold bind.
  unfold retrieve. rewrite find_stored_under, stored_under_store.
  cbn [hd_error a_content].
  apply validate_input_passed in Ec as [Hs _].
  destruct content; [discriminate | reflexivity].
Qed.

(** X17.  The tool [retrieve] answers with a content exactly when the name is
    valid and an artifact with a non-empty content is stored under it; an
    artifact whose content is the empty string is answered like a missing
    one. *)
Theorem retrieve_tool_finds_nonempty_only :
  forall (st : Store) (name content : string),
    (mcp.retrieve st name = simplecontext.Answer (Some content) <->
     simplecontext.validate_input name "name" 255 = Ok tt /\
     retrieve st name = Some content /\ content <> "") /\
    (mcp.retrieve st name = simplecontext.Answer None <->
     simplecontext.validate_input name "name" 255 = Ok tt /\
     (retrieve st name = None \/ retrieve st name = Some "")).
Proof.
  intros st name content.
  unfold mcp.retrieve, mcp.retrieve_try.
  destruct (simplecontext.validate_input name "name" 255) as [[]|e] eqn:En.
  - simpl. destruct (retrieve st name) as [c|] eqn:Er.
    + destruct (String.eqb_spec c "") as [-> | Hc].
      * split; split; try discriminate; auto.
        intros (_ & H & Hne). injection H as <-. congruence.
      * split; split.
        -- intros H. injection H as <-. auto.
        -- intros (_ & H & _). injection H as <-. reflexivity.
        -- discriminate.
        -- intros (_ & [H | H]); [discriminate | congruence].
    + split; split; try discriminate; auto.
      intros (_ & H & _). discriminate.
  - split; split; try (intros (H & _); discriminate);
      destruct e; discriminate.
Qed.

End MoreVault.

Section MoreVaultExamples.
Import text storage python memory ledger notions notions2.

Lemma store_tool_then_retrieve_tool_witness :
  @mcp.store no_match init_schema "id-1" 1700000000 "db.sql" "CREATE TABLE x"
  = (fst (store init_schema "id-1" 1700000000 "db.sql" "CREATE TABLE x"),
     simplecontext.Answer (14%Z, false)) /\
  mcp.retrieve
    (fst (store init_schema "id-1" 1700000000 "db.sql" "CREATE TABLE x"))
    "db.sql"
  = simplecontext.Answer (Some "CREATE TABLE x").
Proof.
  assert (H : @mcp.store no_match init_schema "id-1" 1700000000 "db.sql"
                "CREATE TABLE x"
              = (fst (store init_schema "id-1" 1700000000 "db.sql"
                        "CREATE TABLE x"),
                 simplecontext.Answer (14%Z, false)))
    by (vm_compute; reflexivity).
  split; [exact H|].
  exact (proj1 (proj1 (@store_tool_then_retrieve_tool no_match init_schema _
                         "id-1" 1700000000 "db.sql" "CREATE TABLE x") _ H)).
Defined.

End MoreVaultExamples.

(* ------------------------------------------------------------------ *)
(** ** The error journal, again *)

Section MoreJournal.
Import sqlite storage errors journal notions notions2.

Lemma max_rowid_le (l : list Z) (n : Z) :
  (0 <= n)%Z -> Forall (fun y => (y <= n)%Z) l -> (max_rowid l <= n)%Z.
Proof.
  intros Hn. induction 1 as [|y l Hy Hl IH]; simpl; lia.
Qed.

Lemma ids_upto_le (n : nat) : Forall (fun y => (y <= Z.of_nat n)%Z) (ids_upto n).
Proof.
  unfold ids_upto. apply Forall_forall. intros y Hy.
  apply in_map_iff in Hy as (k & <- & Hk). apply in_seq in Hk. lia.
Qed.

Lemma ids_upto_next (n : nat) :
  ids_upto (S n) = (ids_upto n ++ [(Z.of_nat n + 1)%Z])%list.
Proof.
  unfold ids_upto. rewrite seq_S, map_app. simpl. do 2 f_equal. lia.
Qed.

Lemma resolve_keeps_ids (error_id : Z) (l : list ErrorRow) :
  map e_id (map (fun e => if (e_id e =? error_id)%Z
                          then set_resolved e else e) l)
  = map e_id l.
Proof.
  rewrite map_map. apply map_ext. intros e.
  destruct (e_id e =? error_id)%Z; reflexivity.
Qed.

(** X18.  The ids of the journal over every run of [log_error] and
    [resolve_error] from the fresh store: the k-th error logged has the id
    k, no error is ever removed, and [resolved] is 0 or 1 in every row. *)
Theorem journal_ids_count_the_logged_errors :
  forall ops,
    map e_id (storage.errors (run ops)) = ids_upto (logged ops) /\
    List.length (storage.errors (run ops)) = logged ops /\
    Forall (fun e => e_resolved e = 0%Z \/ e_resolved e = 1%Z)
           (storage.errors (run ops)).
Proof.
  intros ops.
  assert (G : forall st n,
             map e_id (storage.errors st) = ids_upto n ->
             errors_seq st = Z.of_nat n ->
             Forall (fun e => e_resolved e = 0%Z \/ e_resolved e = 1%Z)
                    (storage.errors st) ->
             map e_id (storage.errors (fold_left step ops st))
             = ids_upto (n + logged ops) /\
             Forall (fun e => e_resolved e = 0%Z \/ e_resolved e = 1%Z)
                    (storage.errors (fold_left step ops st))).
  { induction ops as [|o ops IH]; intros st n Hids Hseq Hres.
    - simpl. rewrite Nat.add_0_r. auto.
    - destruct o as [now action error context | error_id resolution].
      + change (logged (Log now action error context :: ops))
          with (S (logged ops)).
        replace (n + S (logged ops))%nat with (S n + logged ops)%nat by lia.
        assert (Hid : (Z.max (errors_seq st)
                             (max_rowid (map e_id (storage.errors st))) + 1
                       = Z.of_nat n + 1)%Z).
        { rewrite Hids, Hseq.
          pose proof (max_rowid_le (ids_upto n) (Z.of_nat n)
                        ltac:(lia) (ids_upto_le n)).
          lia. }
        apply IH.
        * unfold step, log_error. simpl. rewrite map_app. simpl.
          rewrite Hid, Hids. symmetry. apply ids_upto_next.
        * unfold step, log_error. simpl. rewrite Hid. lia.
        * unfold step, log_error. simpl. apply Forall_app. split; auto.
      + change (logged (Resolve error_id resolution :: ops))
          with (logged ops).
        apply IH.
        * unfold step, resolve_error. simpl.
          rewrite resolve_keeps_ids. exact Hids.
        * exact Hseq.
        * unfold step, resolve_error. simpl.
          rewrite Forall_forall in *. intros e He.
          apply in_map_iff in He as (e' & <- & He').
          destruct (e_id e' =? error_id)%Z; [right; reflexivity | auto]. }
  destruct (G init_schema 0%nat) as [H1 H2];
    [reflexivity | reflexivity | constructor |].
  simpl in H1. unfold run. split; [exact H1 | split; [|exact H2]].
  rewrite <- (length_map e_id), H1. unfold ids_upto.
  rewrite length_map, length_seq. reflexivity.
Qed.

Lemma set_resolved_twice (error_id : Z) (e : ErrorRow) :
  (fun e => if (e_id e =? error_id)%Z then set_resolved e else e)
    (if (e_id e =? error_id)%Z then set_resolved e else e)
  = if (e_id e =? error_id)%Z then set_resolved e else e.
Proof.
  destruct (e_id e =? error_id)%Z eqn:E; simpl; rewrite E; reflexivity.
Qed.

(** X19.  Resolving an error a second time changes nothing and, like the first
    time, reports success: [resolve_error] on the store it has produced
    returns the same store and the same answer, whatever the resolution
    text. *)
Theorem resolve_error_again_is_the_same :
  forall (st : Store) (error_id : Z) (resolution resolution' : string),
    resolve_error (fst (resolve_error st error_id resolution))
                  error_id resolution'
    = resolve_error st error_id resolution.
Proof.
  intros st error_id resolution resolution'.
  unfold resolve_error. simpl. f_equal.
  - unfold set_errors. simpl. f_equal.
    rewrite map_map. apply map_ext. intros e. apply set_resolved_twice.
  - f_equal.
    induction (storage.errors st) as [|e l IH]; simpl; auto.
    destruct (e_id e =? error_id)%Z eqn:E; simpl; rewrite E; simpl; auto.
Qed.

Lemma sorted_newest_first (rows : list ErrorRow) :
  StronglySorted (ranks_ge (fun e => Some (e_created_at e))) rows ->
  StronglySorted newer_or_equal rows.
Proof.
  induction 1 as [|e l Hs IH Hall]; constructor; auto.
  rewrite Forall_forall in *. intros x Hx. specialize (Hall x Hx).
  unfold ranks_ge in Hall. simpl in Hall.
  apply Qle_bool_iff, Hall.
Qed.

(** X20.  [get_recent_errors] returns rows of [errors], newest first on
    [created_at], at most [limit] of them when [limit] is not negative;
    with [unresolved_only] none of them is resolved, and when the limit
    leaves room every unresolved error is among them. *)
Theorem recent_errors_are_newest_first :
  forall (st : Store) (limit : Z) (unresolved_only : bool),
    let rows := get_recent_errors st limit unresolved_only in
    StronglySorted newer_or_equal rows /\
    (forall e, In e rows ->
               In e (storage.errors st) /\
               (unresolved_only = true -> e_resolved e = 0%Z)) /\
    ((0 <= limit)%Z -> (Z.of_nat (List.length rows) <= limit)%Z) /\
    ((limit < 0 \/ Z.of_nat (List.length (storage.errors st)) <= limit)%Z ->
     forall e, In e (storage.errors st) -> e_resolved e = 0%Z -> In e rows).
Proof.
  intros st limit unresolved_only rows.
  set (candidates := if unresolved_only
                     then filter (fun e => (e_resolved e =? 0)%Z)
                                 (storage.errors st)
                     else storage.errors st).
  set (ranking := order_by_desc (fun e => Some (e_created_at e)) candidates).
  assert (Hrows : rows = sqlite.limit limit ranking) by reflexivity.
  assert (Hc : forall e, In e candidates ->
                         In e (storage.errors st) /\
                         (unresolved_only = true -> e_resolved e = 0%Z)).
  { intros e He. unfold candidates in He. destruct unresolved_only.
    - apply filter_In in He as [He Hz]. split; auto.
      intros _. apply Z.eqb_eq, Hz.
    - split; auto. discriminate. }
  split; [|split; [|split]].
  - apply sorted_newest_first. rewrite Hrows. unfold sqlite.limit.
    destruct (limit <? 0)%Z; [|apply firstn_sorted];
      apply order_by_desc_sorted.
  - intros e He. apply Hc.
    rewrite Hrows in He. apply In_limit in He.
    apply In_order_by_desc in He. exact He.
  - intros Hl. rewrite Hrows. unfold sqlite.limit.
    destruct (Z.ltb_spec limit 0); [lia|]. rewrite length_firstn. lia.
  - intros Hroom e He Hz.
    assert (Hin : In e ranking).
    { apply In_order_by_desc. unfold candidates.
      destruct unresolved_only; auto.
      apply filter_In. split; auto. apply Z.eqb_eq, Hz. }
    assert (Hlen : (List.length ranking
                    <= List.length (storage.errors st))%nat).
    { unfold ranking.
      rewrite (Permutation_length (order_by_desc_perm _ candidates)).
      unfold candidates. destruct unresolved_only; auto.
      apply filter_length_le. }
    rewrite Hrows. unfold sqlite.limit.
    destruct (Z.ltb_spec limit 0); [exact Hin|].
    rewrite firstn_all2; [exact Hin | lia].
Qed.

End MoreJournal.

(* ------------------------------------------------------------------ *)
(** ** The tools [remember] and [recall], and the mode *)

Section MoreTools.
Import text sqlite storage python memory ledger notions notions2 system.

Lemma step_keeps_config (st : Store) (w : write) :
  config (step st w) = config st.
Proof.
  destruct w as [[id now c tags imp | query] | id now name c
                 | [now a e c | id r]].
  - simpl. unfold memory.remember.
    destruct (existsb _ (memories st)); reflexivity.
  - change (step st (Ledger (Forget query)))
      with (ledger.step st (Forget query)).
    destruct (step_forget st query) as [Hs | Hs]; rewrite Hs; [reflexivity|].
    apply delete_like_other_tables.
  - reflexivity.
  - reflexivity.
  - reflexivity.
Qed.

(** X21.  No operation that writes ever sets the mode: after every run of
    [remember], [forget], [store], [log_error] and [resolve_error] from the
    fresh store, the [config] table is empty and [status] reports the mode
    "coding". *)
Theorem status_mode_is_always_coding :
  forall ws,
    config (run ws) = [] /\ s_mode (status (run ws)) = "coding".
Proof.
  intros ws.
  assert (H : config (run ws) = []).
  { unfold run. generalize (eq_refl (config init_schema)).
    generalize init_schema at 1 3.
    induction ws as [|w ws IH]; intros st Hst; simpl; auto.
    apply IH. rewrite step_keeps_config. exact Hst. }
  split; [exact H|]. unfold status. simpl. rewrite H. reflexivity.
Qed.

Lemma validate_input_raises (content field_name : string) (max_length : Z)
  (e : exn) :
  simplecontext.validate_input content field_name max_length = Raise e ->
  exists msg, e = ValueError msg.
Proof.
  unfold simplecontext.validate_input.
  destruct (String.eqb (strip content) ""); [intros H; injection H as <-; eauto|].
  destruct (max_length <? _)%Z; [intros H; injection H as <-; eauto|].
  discriminate.
Qed.

Context {R : simplecontext.Regex}.

(** X22.  The outcomes of the tool [remember].  An answer carries the id, comes
    only for content that is not blank and at most 100000 characters long,
    and goes with exactly one new row, of importance "medium", and its
    index entry.  The database error is the answer exactly when valid
    content meets an id already in use.  Without an answer the store is as
    before. *)
Theorem remember_tool_outcomes :
  forall (st : Store) (memory_id : string) (now : Q) (content : string)
         (tags : option (list string)),
    let out := simplecontext.remember st memory_id now content tags in
    let row := remembered_row st memory_id now content tags "medium" in
    (forall a, snd out = simplecontext.Answer a ->
               fst a = memory_id /\
               all_space content = false /\
               (Z.of_nat (String.length content) <= 100000)%Z /\
               memories (fst out) = (memories st ++ [row])%list /\
               memories_fts (fst out)
               = (memories_fts st ++ [index_entry row])%list) /\
    (snd out = simplecontext.DatabaseErrorReply <->
     simplecontext.validate_input content "content" 100000 = Ok tt /\
     existsb (fun m => String.eqb (m_id m) memory_id) (memories st) = true) /\
    ((forall a, snd out <> simplecontext.Answer a) -> fst out = st).
Proof.
  intros st memory_id now content tags out row.
  unfold out, simplecontext.remember, simplecontext.remember_try.
  change simplecontext.MAX_CONTENT_LENGTH with 100000%Z.
  destruct (simplecontext.validate_input content "content" 100000)
    as [[]|e] eqn:Ev.
  - unfold bind, memory.remember.
    replace (match match tags with Some l => l | None => [] end with
             | _ => _ end)
      with (match tags with Some l => l | None => @nil string end)
      by (destruct tags; reflexivity).
    destruct (existsb _ (memories st)) eqn:Ex; simpl.
    + split; [intros a H; discriminate|].
      split; [split; auto|]. reflexivity.
    + apply validate_input_passed in Ev as [Hs Hl].
      split; [|split].
      * intros a H. injection H as <-. simpl.
        repeat split; auto;
          unfold memories_ai, index_entry, row, remembered_row;
          destruct tags; reflexivity.
      * split; [discriminate | intros [_ H]; discriminate].
      * intros H. exfalso. eapply H. reflexivity.
  - destruct (validate_input_raises _ _ _ _ Ev) as (msg & ->). simpl.
    split; [intros a H; discriminate|].
    split; [split; [discriminate | intros [H _]; discriminate]
           | reflexivity].
Qed.

Context {E : Fts5}.

(** X23.  The tool [recall] never passes an exception on; which of its four
    replies it gives is decided as follows.  A validation error: exactly
    when the query is blank or over 1000 characters or the limit is outside
    1 to 100.  The database error: exactly when a valid query and limit meet
    a query the full-text engine rejects.  "Unexpected error": exactly when,
    for valid input, [SimpleMemory.recall] returns a row whose age is NULL,
    on which [int(r['age_days'])] raises [TypeError].  The rows themselves:
    exactly when, for valid input, [SimpleMemory.recall] returns them and
    each has an age. *)
Theorem recall_tool_error_replies :
  forall (st : Store) (now : Q) (query : string) (limit : Z),
    let valid :=
      simplecontext.validate_input query "query" 1000 = Ok tt /\
      (1 <= limit <= 100)%Z in
    let aged (rows : list RecallRow) :=
      forall r, In r rows -> r_age_days r <> None in
    (simplecontext.recall st now query limit
     = simplecontext.DatabaseErrorReply <->
     valid /\ fts5_parse query = None) /\
    ((exists msg, simplecontext.recall st now query limit
                  = simplecontext.ErrorReply msg) <->
     ~ valid) /\
    (simplecontext.recall st now query limit
     = simplecontext.UnexpectedErrorReply <->
     valid /\ exists rows, memory.recall st now query limit = Ok rows /\
                           ~ aged rows) /\
    (forall rows,
        simplecontext.recall st now query limit = simplecontext.Answer rows <->
        valid /\ memory.recall st now query limit = Ok rows /\ aged rows).
Proof.
  intros st now query limit valid aged. unfold valid.
  assert (Haged : forall rows,
             existsb (fun r => match r_age_days r with
                               | None => true
                               | Some _ => false
                               end) rows = false <-> aged rows).
  { intros rows. unfold aged. split.
    - intros Hex r Hr Hn.
      assert (Ht : existsb (fun r => match r_age_days r with
                                     | None => true
                                     | Some _ => false
                                     end) rows = true).
      { apply existsb_exists. exists r. rewrite Hn. auto. }
      congruence.
    - intros Ha. destruct (existsb _ rows) eqn:Ex; [|reflexivity].
      apply existsb_exists in Ex as (r & Hr & Hn).
      destruct (r_age_days r) eqn:Ea; [discriminate|].
      exfalso. exact (Ha r Hr Ea). }
  unfold simplecontext.recall, simplecontext.recall_try.
  change simplecontext.MAX_QUERY_LENGTH with 1000%Z.
  destruct (simplecontext.validate_input query "query" 1000)
    as [[]|e] eqn:Ev.
  - unfold bind.
    destruct ((limit <? 1) || (100 <? limit))%Z eqn:El.
    + assert (Hl : ~ (1 <= limit <= 100)%Z).
      { apply orb_true_iff in El as [L | L]; apply Z.ltb_lt in L; lia. }
      simpl. split; [|split; [|split]].
      * split; [discriminate | intros [[_ H] _]; contradiction].
      * split; [intros _ [_ H]; contradiction | eauto].
      * split; [discriminate | intros [[_ H] _]; contradiction].
      * intros rows.
        split; [discriminate | intros [[_ H] _]; contradiction].
    + assert (Hl : (1 <= limit <= 100)%Z).
      { apply orb_false_iff in El as [L1 L2].
        apply Z.ltb_ge in L1, L2. lia. }
      assert (Hparse : fts5_parse query = None <->
                       memory.recall st now query limit
                       = Raise OperationalError).
      { unfold memory.recall.
        destruct (Z.eqb_spec limit 0); [lia|].
        destruct (fts5_parse query); split; congruence. }
      destruct (memory.recall st now query limit) as [rs|e] eqn:Er.
      * unfold simplecontext.render_rows.
        destruct (existsb _ rs) eqn:Ex; simpl.
        -- assert (Hn : ~ aged rs).
           { intros Ha. apply Haged in Ha. congruence. }
           split; [|split; [|split]].
           ++ split; [discriminate|].
              intros [_ H]. apply Hparse in H. discriminate.
           ++ split; [intros [msg H]; discriminate
                     | intros H; exfalso; apply H; auto].
           ++ split; [intros _; split; [auto | exists rs; auto]
                     | reflexivity].
           ++ intros rows. split; [discriminate|].
              intros (_ & H & Ha). injection H as <-. contradiction.
        -- apply Haged in Ex.
           split; [|split; [|split]].
           ++ split; [discriminate|].
              intros [_ H]. apply Hparse in H. discriminate.
           ++ split; [intros [msg H]; discriminate
                     | intros H; exfalso; apply H; auto].
           ++ split; [discriminate|].
              intros (_ & rows & H & Hn). injection H as <-. contradiction.
           ++ intros rows. split.
              ** intros H. injection H as <-. auto.
              ** intros (_ & H & _). injection H as <-. reflexivity.
      * assert (He : e = OperationalError).
        { unfold memory.recall in Er.
          destruct (Z.eqb_spec limit 0); [discriminate|].
          destruct (fts5_parse query); congruence. }
        subst e. simpl.
        split; [|split; [|split]].
        -- split; [intros _; split; [auto | apply Hparse; reflexivity]
                  | reflexivity].
        -- split; [intros [msg H]; discriminate
                  | intros H; exfalso; apply H; auto].
        -- split; [discriminate|].
           intros (_ & rows & H & _). discriminate.
        -- intros rows. split; [discriminate|].
           intros (_ & H & _). discriminate.
  - destruct (validate_input_raises _ _ _ _ Ev) as (msg & ->).
    simpl. split; [|split; [|split]].
    + split; [discriminate | intros [[H _] _]; discriminate].
    + split; [intros _ [H _]; discriminate | eauto].
    + split; [discriminate | intros [[H _] _]; discriminate].
    + intros rows.
      split; [discriminate | intros [[H _] _]; discriminate].
Qed.

End MoreTools.

Section MoreToolsExamples.
Import text sqlite storage python memory ledger notions notions2.

Lemma recall_tool_error_replies_witness :
  julianday_unixepoch_ms (253402300800 - (1 # 2048)) = None /\
  (exists dated late,
      @memory.recall one_word undated 1700000001 "fact" 5 = Ok [dated; late] /\
      m_content (r_row dated) = "Recent fact" /\
      m_content (r_row late) = "Late fact" /\
      r_age_days late = None /\ r_recency_score late = None) /\
  @simplecontext.recall one_word undated 1700000001 "fact" 5
  = simplecontext.UnexpectedErrorReply.
Proof.
  split; [vm_compute; reflexivity|].
  split.
  { do 2 eexists. split; [vm_compute; reflexivity|].
    repeat split; reflexivity. }
  pose proof (@recall_tool_error_replies one_word undated 1700000001 "fact" 5)
    as H.
  cbv zeta in H. destruct H as (_ & _ & [_ H] & _). apply H.
  split; [split; [reflexivity | lia]|].
  eexists. split; [vm_compute; reflexivity|].
  intros Ha. eapply Ha; [right; left; reflexivity | reflexivity].
Defined.

End MoreToolsExamples.
